(** * Shrimp Vision front end: annotation session, canvas renderer and
      training-status synchroniser

    A shallow embedding of the React components of the repository:
    - the annotation page ([AnnotatePage], both revisions that the repository
      carries: the one with the class registry and the earlier one without),
    - the training progress modal ([TrainingProgress]) and the polling effect
      of the training page ([TrainPage]).

    React state is modelled by explicit state passing: every handler is a
    function from the component state (and the DOM objects it reads) to the
    next state.  Handlers run to completion and the component is re-rendered
    between two events, so the state a handler reads through its closure is
    the state the previous handler produced. *)

From Stdlib Require Import ZArith QArith Qabs Qround Lqa Lia.
From Stdlib Require Import DecimalString.
From stdpp Require Import base option list strings gmap.

Local Open Scope string_scope.

(** ** JavaScript numbers

    A JavaScript [number] is an IEEE-754 double.  The model keeps the special
    values [Infinity], [-Infinity] and [NaN] and the rules by which the
    arithmetic operators produce and propagate them, and takes the finite
    values to be exact rationals: rounding and overflow of finite results are
    not modelled.  The sign of zero is not modelled either; the only divisors
    in the code are canvas and layout dimensions, which are never negative, so
    a zero divisor is the positive zero. *)

Module JsNum.

Inductive jsnum : Type :=
| Fin (q : Q)
| PInf
| NInf
| NaN.

Definition inf_of_sign (c : comparison) : jsnum :=
  match c with
  | Gt => PInf
  | Lt => NInf
  | Eq => NaN
  end.

(** [a - b] *)
Definition jsub (a b : jsnum) : jsnum :=
  match a, b with
  | NaN, _ | _, NaN => NaN
  | Fin p, Fin q => Fin (p - q)
  | Fin _, PInf => NInf
  | Fin _, NInf => PInf
  | PInf, PInf => NaN
  | PInf, _ => PInf
  | NInf, NInf => NaN
  | NInf, _ => NInf
  end.

(** [a * b] *)
Definition jmul (a b : jsnum) : jsnum :=
  match a, b with
  | NaN, _ | _, NaN => NaN
  | Fin p, Fin q => Fin (p * q)
  | Fin p, PInf | PInf, Fin p => inf_of_sign (p ?= 0)%Q
  | Fin p, NInf | NInf, Fin p => inf_of_sign (CompOpp (p ?= 0)%Q)
  | PInf, PInf | NInf, NInf => PInf
  | PInf, NInf | NInf, PInf => NInf
  end.

(** [a / b]: never raises; a zero divisor gives an infinity, or [NaN] for
    [0 / 0]. *)
Definition jdiv (a b : jsnum) : jsnum :=
  match a, b with
  | NaN, _ | _, NaN => NaN
  | Fin p, Fin q =>
      if Qeq_bool q 0 then inf_of_sign (p ?= 0)%Q else Fin (p / q)
  | Fin _, (PInf | NInf) => Fin 0
  | PInf, Fin q => match (q ?= 0)%Q with Lt => NInf | _ => PInf end
  | NInf, Fin q => match (q ?= 0)%Q with Lt => PInf | _ => NInf end
  | (PInf | NInf), (PInf | NInf) => NaN
  end.

(** [Math.abs(a)] *)
Definition jabs (a : jsnum) : jsnum :=
  match a with
  | Fin q => Fin (Qabs q)
  | PInf | NInf => PInf
  | NaN => NaN
  end.

(** [a < b]; every comparison with [NaN] is false. *)
Definition jlt (a b : jsnum) : bool :=
  match a, b with
  | NaN, _ | _, NaN => false
  | Fin p, Fin q => match (p ?= q)%Q with Lt => true | _ => false end
  | Fin _, PInf => true
  | Fin _, NInf => false
  | PInf, _ => false
  | NInf, NInf => false
  | NInf, _ => true
  end.

(** [a > b] *)
Definition jgt (a b : jsnum) : bool := jlt b a.

Definition is_finite (a : jsnum) : bool :=
  match a with Fin _ => true | _ => false end.

(** Two model values denote the same number: finite values are compared as
    rationals (a rational has several representations as a fraction). *)
Definition same_value (a b : jsnum) : Prop :=
  match a, b with
  | Fin p, Fin q => (p == q)%Q
  | PInf, PInf | NInf, NInf | NaN, NaN => True
  | _, _ => False
  end.

End JsNum.

Import JsNum.

Notation "a ≈ b" := (same_value a b) (at level 70, no associativity).

(** ** JavaScript idioms used by the components *)

(** [a || b] on strings: the empty string is falsy. *)
Definition str_or (a b : string) : string :=
  match a with
  | EmptyString => b
  | _ => a
  end.

(** A non-negative integer in a template literal, [`${n}`]. *)
Definition nat_to_string (n : nat) : string :=
  NilZero.string_of_uint (Nat.to_uint n).

(** [arr[i]] for a numeric index: [undefined] (here [None]) out of range. *)
Definition js_index {A} (arr : list A) (i : Z) : option A :=
  if (i <? 0)%Z then None else arr !! Z.to_nat i.

(** [arr.filter((elem, i) => p(elem, i))], visiting the elements from index
    [i0]. *)
Fixpoint filter_index {A} (p : A → nat → bool) (i0 : nat) (arr : list A)
  : list A :=
  match arr with
  | [] => []
  | a :: rest =>
      if p a i0 then a :: filter_index p (S i0) rest
      else filter_index p (S i0) rest
  end.

(** ** The annotation page (the revision with the class registry) *)

Module Annotate.

Record ImageData := {
  img_id : string;
  img_filename : string;
  img_original_name : string;
  img_width : jsnum;
  img_height : jsnum;
  img_path : string
}.

(** [BoundingBox]; the candidate box ([Partial<BoundingBox>]) is the same
    record with the optional fields absent. *)
Record BoundingBox := {
  x : jsnum;
  y : jsnum;
  width : jsnum;
  height : jsnum;
  label : string;
  confidence : jsnum;
  class_id : option Z;
  color : option string;
  attributes : option (list string)
}.

Record Annotation := {
  image_id : string;
  image_filename : string;
  image_width : jsnum;
  image_height : jsnum;
  bounding_boxes : list BoundingBox;
  total_shrimp : nat
}.

Record ClassInfo := {
  cls_id : Z;
  cls_name : string;
  display_name : string;
  cls_color : string;
  cls_description : string
}.

(** The DOM objects the handlers read. *)
Record DOMRect := {
  rect_left : jsnum;
  rect_top : jsnum;
  rect_width : jsnum;
  rect_height : jsnum
}.

Record Canvas := {
  canvas_width : jsnum;
  canvas_height : jsnum;
  getBoundingClientRect : DOMRect;
  context2d : bool                (* getContext('2d') is not null *)
}.

Record Dom := {
  canvasRef : option Canvas;
  imageRef : bool                 (* imageRef.current is not null *)
}.

Record MouseEvent := {
  clientX : jsnum;
  clientY : jsnum
}.

(** The [useState] cells of [AnnotatePage]. *)
Record Session := {
  images : list ImageData;
  currentImageIndex : Z;
  boundingBoxes : list BoundingBox;
  isDrawing : bool;
  currentBox : option BoundingBox;
  availableClasses : gmap string ClassInfo;
  selectedClass : string;
  selectedColor : option string;
  selectedAttributes : list string
}.

Definition set_currentImageIndex (i : Z) (st : Session) : Session :=
  {| images := images st; currentImageIndex := i;
     boundingBoxes := boundingBoxes st; isDrawing := isDrawing st;
     currentBox := currentBox st; availableClasses := availableClasses st;
     selectedClass := selectedClass st; selectedColor := selectedColor st;
     selectedAttributes := selectedAttributes st |}.

Definition set_boundingBoxes (bs : list BoundingBox) (st : Session) : Session :=
  {| images := images st; currentImageIndex := currentImageIndex st;
     boundingBoxes := bs; isDrawing := isDrawing st;
     currentBox := currentBox st; availableClasses := availableClasses st;
     selectedClass := selectedClass st; selectedColor := selectedColor st;
     selectedAttributes := selectedAttributes st |}.

Definition set_isDrawing (d : bool) (st : Session) : Session :=
  {| images := images st; currentImageIndex := currentImageIndex st;
     boundingBoxes := boundingBoxes st; isDrawing := d;
     currentBox := currentBox st; availableClasses := availableClasses st;
     selectedClass := selectedClass st; selectedColor := selectedColor st;
     selectedAttributes := selectedAttributes st |}.

Definition set_currentBox (b : option BoundingBox) (st : Session) : Session :=
  {| images := images st; currentImageIndex := currentImageIndex st;
     boundingBoxes := boundingBoxes st; isDrawing := isDrawing st;
     currentBox := b; availableClasses := availableClasses st;
     selectedClass := selectedClass st; selectedColor := selectedColor st;
     selectedAttributes := selectedAttributes st |}.

(** [setSelectedClass(className)], the click on a type button. *)
Definition setSelectedClass (className : string) (st : Session) : Session :=
  {| images := images st; currentImageIndex := currentImageIndex st;
     boundingBoxes := boundingBoxes st; isDrawing := isDrawing st;
     currentBox := currentBox st; availableClasses := availableClasses st;
     selectedClass := className; selectedColor := selectedColor st;
     selectedAttributes := selectedAttributes st |}.

(** The pointer conversion that [handleMouseDown] and [handleMouseMove] both
    spell out: the pointer position in canvas pixels, ... *)
Definition canvasPoint (canvas : Canvas) (e : MouseEvent) : jsnum * jsnum :=
  let rect := getBoundingClientRect canvas in
  let scaleX := jdiv (canvas_width canvas) (rect_width rect) in
  let scaleY := jdiv (canvas_height canvas) (rect_height rect) in
  let px := jmul (jsub (clientX e) (rect_left rect)) scaleX in
  let py := jmul (jsub (clientY e) (rect_top rect)) scaleY in
  (px, py).

(** ... and its normalisation by the canvas dimensions. *)
Definition normalizedPoint (canvas : Canvas) (e : MouseEvent) : jsnum * jsnum :=
  let '(px, py) := canvasPoint canvas e in
  let normalizedX := jdiv px (canvas_width canvas) in
  let normalizedY := jdiv py (canvas_height canvas) in
  (normalizedX, normalizedY).

Definition handleMouseDown (dom : Dom) (e : MouseEvent) (st : Session)
  : Session :=
  match canvasRef dom, imageRef dom with
  | Some canvas, true =>
      let '(normalizedX, normalizedY) := normalizedPoint canvas e in
      set_currentBox
        (Some {| x := normalizedX; y := normalizedY;
                 width := Fin 0; height := Fin 0;
                 label := "shrimp"; confidence := Fin 1;
                 class_id := None; color := None; attributes := None |})
        (set_isDrawing true st)
  | _, _ => st
  end.

Definition handleMouseMove (dom : Dom) (e : MouseEvent) (st : Session)
  : Session :=
  if negb (isDrawing st) then st else
  match currentBox st, canvasRef dom with
  | Some prev, Some canvas =>
      let '(normalizedX, normalizedY) := normalizedPoint canvas e in
      let w := jsub normalizedX (x prev) in
      let h := jsub normalizedY (y prev) in
      set_currentBox
        (Some {| x := if jlt w (Fin 0) then normalizedX else x prev;
                 y := if jlt h (Fin 0) then normalizedY else y prev;
                 width := jabs w; height := jabs h;
                 label := label prev; confidence := confidence prev;
                 class_id := class_id prev; color := color prev;
                 attributes := attributes prev |})
        st
  | _, _ => st
  end.

(** The minimum size of a committed box, [0.01]. *)
Definition min_size : jsnum := Fin (1 # 100).

(** [selectedColor || undefined] *)
Definition color_or_undefined (c : option string) : option string :=
  match c with
  | Some EmptyString | None => None
  | Some s => Some s
  end.

Definition newBox (st : Session) (cb : BoundingBox) : BoundingBox :=
  let classInfo := availableClasses st !! selectedClass st in
  {| x := x cb; y := y cb; width := width cb; height := height cb;
     label := selectedClass st; confidence := confidence cb;
     class_id := cls_id <$> classInfo;
     color := color_or_undefined (selectedColor st);
     attributes :=
       Some (if (0 <? length (selectedAttributes st))%nat
             then selectedAttributes st else []) |}.

Definition handleMouseUp (st : Session) : Session :=
  if negb (isDrawing st) then st else
  match currentBox st with
  | None => st
  | Some cb =>
      let st' :=
        if jgt (width cb) min_size && jgt (height cb) min_size
        then set_boundingBoxes (boundingBoxes st ++ [newBox st cb]) st
        else st in
      set_currentBox None (set_isDrawing false st')
  end.

(** One [fillRect]/[strokeRect]/[fillText] group of [drawCanvas]. *)
Record DrawInstr := {
  rectX : jsnum;
  rectY : jsnum;
  rectWidth : jsnum;
  rectHeight : jsnum;
  strokeStyle : string;
  fillStyle : string;
  labelText : string;
  labelX : jsnum;
  labelY : jsnum
}.

(** The body of the [forEach] of [drawCanvas]. *)
Definition drawBox (classes : gmap string ClassInfo) (canvas : Canvas)
    (index : nat) (box : BoundingBox) : DrawInstr :=
  let px := jmul (x box) (canvas_width canvas) in
  let py := jmul (y box) (canvas_height canvas) in
  let pw := jmul (width box) (canvas_width canvas) in
  let ph := jmul (height box) (canvas_height canvas) in
  let classInfo := classes !! str_or (label box) "shrimp" in
  let color := str_or (from_option cls_color "" classInfo) "#10B981" in
  let displayName := str_or (from_option display_name "" classInfo) (label box) in
  {| rectX := px; rectY := py; rectWidth := pw; rectHeight := ph;
     strokeStyle := color; fillStyle := color ++ "1A";
     labelText := displayName ++ " " ++ nat_to_string (index + 1);
     labelX := px; labelY := jsub py (Fin 5) |}.

Definition allBoxes (st : Session) : list BoundingBox :=
  match currentBox st with
  | Some cb => boundingBoxes st ++ [cb]
  | None => boundingBoxes st
  end.

(** [drawCanvas] as the list of what it paints, in painting order; nothing
    is painted when a ref or the 2d context is missing. *)
Definition drawCanvas (dom : Dom) (st : Session) : list DrawInstr :=
  match canvasRef dom, imageRef dom with
  | Some canvas, true =>
      if context2d canvas
      then imap (drawBox (availableClasses st) canvas) (allBoxes st)
      else []
  | _, _ => []
  end.

Definition deleteBox (index : nat) (st : Session) : Session :=
  set_boundingBoxes
    (filter_index (fun _ i => negb (i =? index)%nat) 0 (boundingBoxes st)) st.

(** What [saveAnnotation] hands to the persistence endpoint. *)
Inductive SaveOutcome :=
| NotAttempted                     (* [images.length === 0]: early return *)
| Threw                            (* building the record threw; the [catch]
                                      reports the failure *)
| Posted (a : Annotation).

Definition saveAnnotation (st : Session) : SaveOutcome :=
  if (length (images st) =? 0)%nat then NotAttempted else
  match js_index (images st) (currentImageIndex st) with
  | None => Threw
  | Some currentImage =>
      Posted {| image_id := img_id currentImage;
                image_filename := img_filename currentImage;
                image_width := img_width currentImage;
                image_height := img_height currentImage;
                bounding_boxes := boundingBoxes st;
                total_shrimp := length (boundingBoxes st) |}
  end.

Definition nextImage (st : Session) : Session :=
  if (currentImageIndex st <? Z.of_nat (length (images st)) - 1)%Z
  then set_currentImageIndex (currentImageIndex st + 1)%Z st
  else st.

Definition prevImage (st : Session) : Session :=
  if (currentImageIndex st >? 0)%Z
  then set_currentImageIndex (currentImageIndex st - 1)%Z st
  else st.

Definition resetAnnotation (st : Session) : Session :=
  set_boundingBoxes [] st.

(** Clicks on the Next and Previous buttons. *)
Inductive NavClick := Next | Previous.

Definition navigate (clicks : list NavClick) (st : Session) : Session :=
  fold_left (fun s c => match c with
                        | Next => nextImage s
                        | Previous => prevImage s
                        end) clicks st.

(** A pointer-drag gesture: mouse-down, a sequence of mouse-moves, mouse-up.
    Every event comes with the DOM as it is when the event is handled. *)
Definition moves (evs : list (Dom * MouseEvent)) (st : Session) : Session :=
  fold_left (fun s de => handleMouseMove de.1 de.2 s) evs st.

Definition gesture (down : Dom * MouseEvent) (mvs : list (Dom * MouseEvent))
    (st : Session) : Session :=
  handleMouseUp (moves mvs (handleMouseDown down.1 down.2 st)).

End Annotate.

(** ** The annotation page, earlier revision (no class registry)

    The box record has no optional fields, the pointer handlers, [deleteBox],
    [saveAnnotation], [nextImage] and [prevImage] read the same as in
    [Annotate]; [handleMouseUp] commits the candidate as it is and
    [drawCanvas] labels a box with its raw label. *)

Module AnnotateV1.
Import Annotate.

Definition handleMouseUp (st : Session) : Session :=
  if negb (isDrawing st) then st else
  match currentBox st with
  | None => st
  | Some cb =>
      let st' :=
        if jgt (width cb) min_size && jgt (height cb) min_size
        then set_boundingBoxes (boundingBoxes st ++ [cb]) st
        else st in
      set_currentBox None (set_isDrawing false st')
  end.

Definition drawBox (canvas : Canvas) (index : nat) (box : BoundingBox)
  : DrawInstr :=
  let px := jmul (x box) (canvas_width canvas) in
  let py := jmul (y box) (canvas_height canvas) in
  let pw := jmul (width box) (canvas_width canvas) in
  let ph := jmul (height box) (canvas_height canvas) in
  {| rectX := px; rectY := py; rectWidth := pw; rectHeight := ph;
     strokeStyle := "#10B981"; fillStyle := "rgba(16, 185, 129, 0.1)";
     labelText := label box ++ " " ++ nat_to_string (index + 1);
     labelX := px; labelY := jsub py (Fin 5) |}.

Definition drawCanvas (dom : Dom) (st : Session) : list DrawInstr :=
  match canvasRef dom, imageRef dom with
  | Some canvas, true =>
      if context2d canvas then imap (drawBox canvas) (allBoxes st) else []
  | _, _ => []
  end.

End AnnotateV1.

(** ** The training progress modal and the training page poller *)

Module Training.

(** An integer in a template literal. *)
Definition Z_to_string (z : Z) : string :=
  NilZero.string_of_int (Z.to_int z).

(** [q.toFixed(4)] for a finite [q]: sign, then the nearest multiple of
    [1/10000] to [|q|] (the larger one on a tie), with four fraction digits.
    (Exponent notation of values from [1e21] on is not modelled.) *)
Definition toFixed4 (q : Q) : string :=
  let n := Qfloor (Qabs q * 10000 + (1 # 2)) in
  let int_part := (n / 10000)%Z in
  let frac := Z.to_nat (n mod 10000) in
  let digit (k : nat) := nat_to_string ((frac / k) mod 10)%nat in
  (if Qlt_le_dec q 0 then "-" else "") ++
  Z_to_string int_part ++ "." ++
  digit 1000%nat ++ digit 100%nat ++ digit 10%nat ++ digit 1%nat.

(** The status record of [/api/train/status]; JSON numbers are finite. *)
Record TrainingUpdate := {
  type : string;
  status : string;
  progress : Q;
  message : string;
  current_epoch : Z;
  total_epochs : Z;
  loss : option Q;
  accuracy : option Q
}.

(** What [fetch] + [response.json()] gave: an exception, or the parsed body
    with its [success] flag and [status] member. *)
Inductive PollResult :=
| FetchThrew
| Json (success : bool) (st : option TrainingUpdate).

(** The state of a mounted [TrainingProgress]: the [isVisible] prop, the
    [useState] cells, the two refs, and whether the [setInterval] timer of
    the current effect is armed. *)
Record Progress := {
  isVisible : bool;
  trainingData : option TrainingUpdate;
  logs : list string;
  prevStatusRef : option string;
  prevEpochRef : option Z;
  interval : bool
}.

Definition shouldLog (st : Progress) (s : TrainingUpdate) : bool :=
  negb (bool_decide (prevStatusRef st = Some (status s)))
  || negb (bool_decide (prevEpochRef st = Some (current_epoch s)))
  || (bool_decide (status s = "preparing")
      && negb (bool_decide (prevStatusRef st = Some "preparing")))
  || (bool_decide (status s = "training")
      && bool_decide (prevEpochRef st = None)).

(** The log line; [now] is [new Date().toLocaleTimeString()]. *)
Definition logMessage (now : string) (s : TrainingUpdate) : string :=
  let base := "[" ++ now ++ "] " ++ message s in
  if bool_decide (status s = "training") && (0 <? current_epoch s)%Z
  then
    let withEpoch :=
      base ++ " - Epoch " ++ Z_to_string (current_epoch s) ++ "/" ++
      Z_to_string (total_epochs s) in
    match loss s with
    | Some l => withEpoch ++ " - Loss: " ++ toFixed4 l
    | None => withEpoch
    end
  else base.

(** [arr.slice(-n)] *)
Definition slice_last {A} (n : nat) (arr : list A) : list A :=
  drop (length arr - n) arr.

(** The updater handed to [setLogs]. *)
Definition appendLog (logMessage : string) (prev : list string) : list string :=
  if (0 <? length prev)%nat && bool_decide (last prev = Some logMessage)
  then prev
  else slice_last 50 (prev ++ [logMessage]).

(** [pollTrainingStatus] from the point where the response has arrived. *)
Definition onPollResult (now : string) (r : PollResult) (st : Progress)
  : Progress :=
  match r with
  | Json true (Some s) =>
      if shouldLog st s
      then {| isVisible := isVisible st; trainingData := Some s;
              logs := appendLog (logMessage now s) (logs st);
              prevStatusRef := Some (status s);
              prevEpochRef := Some (current_epoch s);
              interval := interval st |}
      else {| isVisible := isVisible st; trainingData := Some s;
              logs := logs st;
              prevStatusRef := prevStatusRef st;
              prevEpochRef := prevEpochRef st;
              interval := interval st |}
  | _ => st
  end.

(** What can happen to the mounted component: the parent re-renders it with
    a value for [isVisible], the timer fires, a response arrives. *)
Inductive Event :=
| SetVisible (v : bool)
| Tick
| Response (now : string) (r : PollResult).

(** The [useEffect] on [[isVisible]]: when the prop changes, the cleanup of
    the previous run clears its timer and the body runs again. *)
Definition runEffect (v : bool) (st : Progress) : Progress * nat :=
  if v
  then ({| isVisible := true; trainingData := trainingData st;
           logs := logs st; prevStatusRef := prevStatusRef st;
           prevEpochRef := prevEpochRef st;
           interval := true |}, 1%nat)      (* the immediate initial poll *)
  else ({| isVisible := false; trainingData := trainingData st;
           logs := logs st; prevStatusRef := None; prevEpochRef := None;
           interval := false |}, 0%nat).

(** One event; the second component is the number of requests to
    [/api/train/status] issued while handling it. *)
Definition step (ev : Event) (st : Progress) : Progress * nat :=
  match ev with
  | SetVisible v =>
      if bool_decide (v = isVisible st) then (st, 0%nat) else runEffect v st
  | Tick => (st, if interval st then 1%nat else 0%nat)
  | Response now r => (onPollResult now r st, 0%nat)
  end.

(** The component as mounted by the training page, hidden. *)
Definition mounted : Progress :=
  {| isVisible := false; trainingData := None; logs := [];
     prevStatusRef := None; prevEpochRef := None; interval := false |}.

Definition run (evs : list Event) (st : Progress) : Progress :=
  fold_left (fun s ev => (step ev s).1) evs st.

(** Requests issued over a sequence of events. *)
Fixpoint requests (evs : list Event) (st : Progress) : nat :=
  match evs with
  | [] => 0
  | ev :: rest => (step ev st).2 + requests rest (step ev st).1
  end.

(** The responses of a polling session applied in order. *)
Definition observe (obs : list (string * TrainingUpdate)) (st : Progress)
  : Progress :=
  fold_left (fun s o => onPollResult o.1 (Json true (Some o.2)) s) obs st.

Definition terminal (s : string) : bool :=
  bool_decide (s = "completed") || bool_decide (s = "failed").

(** *** The poller of the training page

    [TrainPage] keeps [isTraining] and the last status; its polling effect
    depends on [[isTraining, trainingStatus.status]], so after every state
    change the timer is armed exactly when the condition of the effect
    holds. *)

Record TrainPage := {
  showTrainingProgress : bool;
  isTraining : bool;
  trainingStatus : TrainingUpdate
}.

Definition pageInterval (p : TrainPage) : bool :=
  isTraining p
  || bool_decide (status (trainingStatus p) = "preparing")
  || bool_decide (status (trainingStatus p) = "training").

(** [fetchTrainingStatus] from the point where the response has arrived
    ([response.data.success], [response.data.status]).  The endpoint always
    sends a status with a successful body; a successful body without one is
    left out of the model (the state is kept). *)
Definition onFetchResult (r : PollResult) (p : TrainPage) : TrainPage :=
  match r with
  | Json true (Some s) =>
      {| showTrainingProgress := showTrainingProgress p;
         isTraining :=
           if terminal (status s) then false else isTraining p;
         trainingStatus := s |}
  | _ => p
  end.

(** The timer of the page fires. *)
Definition pageTick (p : TrainPage) : nat :=
  if pageInterval p then 1%nat else 0%nat.

End Training.

(** ** Vocabulary of the statements *)

(** A finite zero. *)
Definition is_zero (a : jsnum) : bool :=
  match a with Fin q => Qeq_bool q 0 | _ => false end.

(** Zero or [NaN]: what a product with a zero scale factor can be. *)
Definition zero_or_nan (a : jsnum) : Prop :=
  match a with
  | Fin q => (q == 0)%Q
  | NaN => True
  | _ => False
  end.

Module AnnotateSpec.
Import Annotate.

(** A canvas that is laid out: positive finite pixel dimensions and a
    positive finite layout box. *)
Record laid_out (canvas : Canvas) : Prop := {
  lo_cw : ∃ cw, canvas_width canvas = Fin cw ∧ (0 < cw)%Q;
  lo_ch : ∃ ch, canvas_height canvas = Fin ch ∧ (0 < ch)%Q;
  lo_rw : ∃ rw, rect_width (getBoundingClientRect canvas) = Fin rw ∧ (0 < rw)%Q;
  lo_rh : ∃ rh, rect_height (getBoundingClientRect canvas) = Fin rh ∧ (0 < rh)%Q
}.

(** The pointer of the event is within the layout box of the canvas. *)
Definition pointer_inside (canvas : Canvas) (e : MouseEvent) : Prop :=
  ∃ cx cy l t rw rh,
    clientX e = Fin cx ∧ clientY e = Fin cy ∧
    rect_left (getBoundingClientRect canvas) = Fin l ∧
    rect_top (getBoundingClientRect canvas) = Fin t ∧
    rect_width (getBoundingClientRect canvas) = Fin rw ∧
    rect_height (getBoundingClientRect canvas) = Fin rh ∧
    (0 <= cx - l <= rw)%Q ∧ (0 <= cy - t <= rh)%Q.

(** An event handled on a laid out canvas with the pointer inside it. *)
Definition within_canvas (de : Dom * MouseEvent) : Prop :=
  ∃ canvas, canvasRef de.1 = Some canvas ∧ laid_out canvas ∧
            pointer_inside canvas de.2.

(** The invariant of the data model on the geometry of a box. *)
Definition in_unit_square (b : BoundingBox) : Prop :=
  ∃ bx by_ w h,
    x b = Fin bx ∧ y b = Fin by_ ∧ width b = Fin w ∧ height b = Fin h ∧
    (0 <= bx)%Q ∧ (0 <= by_)%Q ∧ (0 <= w)%Q ∧ (0 <= h)%Q ∧
    (bx + w <= 1)%Q ∧ (by_ + h <= 1)%Q.

(** The same box: the same numbers as geometry, the same attributes. *)
Definition same_box (a b : BoundingBox) : Prop :=
  x a ≈ x b ∧ y a ≈ y b ∧ width a ≈ width b ∧ height a ≈ height b ∧
  label a = label b ∧ confidence a ≈ confidence b ∧
  class_id a = class_id b ∧ color a = color b ∧ attributes a = attributes b.

(** The candidate can no longer pass the size test of [handleMouseUp]: one of
    its coordinates is [NaN] and so is, or will be, the extent along it. *)
Definition poisoned (cb : BoundingBox) : Prop :=
  (x cb = NaN ∧ jgt (width cb) min_size = false) ∨
  (y cb = NaN ∧ jgt (height cb) min_size = false).

(** The geometry of the box holds no [NaN]. *)
Definition no_nan (b : BoundingBox) : Prop :=
  x b ≠ NaN ∧ y b ≠ NaN ∧ width b ≠ NaN ∧ height b ≠ NaN.

(** The candidate is as mouse-down made it, or along each axis its origin is
    a number whenever its extent is one. *)
Definition settled (cb : BoundingBox) : Prop :=
  (width cb = Fin 0 ∧ height cb = Fin 0) ∨
  ((width cb = NaN ∨ x cb ≠ NaN) ∧ (height cb = NaN ∨ y cb ≠ NaN)).

(** Both extents of the candidate exceed the minimum size. *)
Definition big_enough (cb : BoundingBox) : bool :=
  jgt (width cb) min_size && jgt (height cb) min_size.

(** The name [drawCanvas] shows for the type of a box: the display name of
    its registry entry, the raw label when there is none. *)
Definition displayNameOf (classes : gmap string ClassInfo) (b : BoundingBox)
  : string :=
  match classes !! str_or (label b) "shrimp" with
  | Some classInfo => str_or (display_name classInfo) (label b)
  | None => label b
  end.

(** The current image index designates an image of the list. *)
Definition index_in_range (st : Session) : Prop :=
  (0 <= currentImageIndex st <= Z.of_nat (length (images st)) - 1)%Z.

(** *** Example data *)

Definition mkCanvas (cw ch : Q) (l t rw rh : Q) : Canvas :=
  {| canvas_width := Fin cw; canvas_height := Fin ch;
     getBoundingClientRect :=
       {| rect_left := Fin l; rect_top := Fin t;
          rect_width := Fin rw; rect_height := Fin rh |};
     context2d := true |}.

Definition mkDom (canvas : Canvas) : Dom :=
  {| canvasRef := Some canvas; imageRef := true |}.

Definition pointer (cx cy : Q) : MouseEvent :=
  {| clientX := Fin cx; clientY := Fin cy |}.

(** A 200x200 canvas shown at its own size in the corner of the viewport. *)
Definition canvas200 : Canvas := mkCanvas 200 200 0 0 200 200.

(** A canvas whose image has not been laid out yet: width 0. *)
Definition canvas_zero_width : Canvas := mkCanvas 0 150 0 0 300 150.

Definition shrimpInfo : ClassInfo :=
  {| cls_id := 0; cls_name := "shrimp"; display_name := "Shrimp";
     cls_color := "#10B981"; cls_description := "Regular shrimp" |}.

Definition adultInfo : ClassInfo :=
  {| cls_id := 1; cls_name := "adult"; display_name := "Adult";
     cls_color := "#3B82F6"; cls_description := "Adult shrimp" |}.

Definition registry : gmap string ClassInfo :=
  <["shrimp" := shrimpInfo]> (<["adult" := adultInfo]> ∅).

Definition image1 : ImageData :=
  {| img_id := "img-1"; img_filename := "img-1.jpg";
     img_original_name := "tank.jpg";
     img_width := Fin 640; img_height := Fin 480;
     img_path := "uploads/img-1.jpg" |}.

(** A fresh session on one image, type "shrimp" selected. *)
Definition session0 : Session :=
  {| images := [image1]; currentImageIndex := 0; boundingBoxes := [];
     isDrawing := false; currentBox := None;
     availableClasses := registry; selectedClass := "shrimp";
     selectedColor := None; selectedAttributes := [] |}.

Definition box (l : string) (bx by_ w h : Q) : BoundingBox :=
  {| x := Fin bx; y := Fin by_; width := Fin w; height := Fin h;
     label := l; confidence := Fin 1; class_id := None; color := None;
     attributes := Some [] |}.

(** Three drags on the 200x200 canvas: two with type "shrimp" selected, then
    one with type "adult". *)
Definition drag (x0 y0 x1 y1 : Q) : Session → Session :=
  gesture (mkDom canvas200, pointer x0 y0) [(mkDom canvas200, pointer x1 y1)].

Definition session_three_boxes : Session :=
  drag 120 20 180 90
    (setSelectedClass "adult"
       (drag 60 60 110 110 (drag 10 10 50 50 session0))).

(** The box the third drag stores. *)
Definition third_box : BoundingBox :=
  {| x := Fin (24000 # 40000); y := Fin (4000 # 40000);
     width := Fin (480000000 # 1600000000);
     height := Fin (560000000 # 1600000000);
     label := "adult"; confidence := Fin 1; class_id := Some 1%Z;
     color := None; attributes := Some [] |}.

(** Two boxes drawn over the same corners with the same selection. *)
Definition twin : BoundingBox := box "shrimp" (1#4) (1#4) (1#4) (1#4).

Definition session_twins : Session :=
  set_boundingBoxes [twin; twin] session0.

Definition annotation_three_boxes : Annotation :=
  {| image_id := "img-1"; image_filename := "img-1.jpg";
     image_width := Fin 640; image_height := Fin 480;
     bounding_boxes := boundingBoxes session_three_boxes;
     total_shrimp := 3 |}.

Definition image2 : ImageData :=
  {| img_id := "img-2"; img_filename := "img-2.jpg";
     img_original_name := "pond.jpg";
     img_width := Fin 800; img_height := Fin 600;
     img_path := "uploads/img-2.jpg" |}.

Definition session_two_images : Session :=
  {| images := [image1; image2]; currentImageIndex := 1; boundingBoxes := [];
     isDrawing := false; currentBox := None;
     availableClasses := registry; selectedClass := "shrimp";
     selectedColor := None; selectedAttributes := [] |}.

End AnnotateSpec.

Module TrainingSpec.
Import Training.

(** No two consecutive entries of the history are the same text. *)
Fixpoint no_adjacent_dup (l : list string) : Prop :=
  match l with
  | [] => True
  | a :: rest =>
      match rest with
      | [] => True
      | b :: _ => a ≠ b ∧ no_adjacent_dup rest
      end
  end.

(** The refs hold exactly the state and epoch of [s]. *)
Definition refs_hold (st : Progress) (s : TrainingUpdate) : Prop :=
  prevStatusRef st = Some (status s) ∧
  prevEpochRef st = Some (current_epoch s).

(** The modal just opened by the training page. *)
Definition shown : Progress := (step (SetVisible true) mounted).1.

(** The observation the modal remembers after a sequence of events: the
    status of the last successful poll response since the modal was last
    hidden.  [vis] is the visibility and [mem] the remembered observation
    before the events; a re-render with the visibility unchanged does not run
    the effect, hiding forgets, showing keeps. *)
Fixpoint remembered_from (vis : bool) (mem : option TrainingUpdate)
    (evs : list Event) : option TrainingUpdate :=
  match evs with
  | [] => mem
  | SetVisible v :: rest =>
      if bool_decide (v = vis) then remembered_from vis mem rest
      else remembered_from v (if v then mem else None) rest
  | Tick :: rest => remembered_from vis mem rest
  | Response _ (Json true (Some s)) :: rest =>
      remembered_from vis (Some s) rest
  | Response _ _ :: rest => remembered_from vis mem rest
  end.

(** ... for a modal that was mounted hidden. *)
Definition remembered (evs : list Event) : option TrainingUpdate :=
  remembered_from false None evs.

(** *** Example data *)

Definition update (st msg : string) (epoch : Z) (l : option Q)
  : TrainingUpdate :=
  {| type := "training_update"; status := st; progress := 0;
     message := msg; current_epoch := epoch; total_epochs := 10;
     loss := l; accuracy := None |}.

Definition preparing_update : TrainingUpdate :=
  update "preparing" "Preparing dataset..." 0 None.

Definition epoch1_update : TrainingUpdate :=
  update "training" "Training in progress" 1 (Some (8 # 10)).

Definition epoch2_update : TrainingUpdate :=
  update "training" "Training in progress" 2 (Some (65 # 100)).

Definition completed_update : TrainingUpdate :=
  update "completed" "Training completed" 10 (Some (12 # 100)).

End TrainingSpec.

(** ** The rest of the annotation page *)

Module AnnotatePage.
Import Annotate.

Record AttributeInfo := {
  attr_name : string;
  attr_display_name : string;
  attr_color : option string;
  attr_description : string
}.

(** The two [useState] cells of the page that hold the colour and the
    additional attribute descriptors. *)
Record Palette := {
  colorAttributes : gmap string AttributeInfo;
  additionalAttributes : gmap string AttributeInfo
}.

Definition set_availableClasses (classes : gmap string ClassInfo)
    (st : Session) : Session :=
  {| images := images st; currentImageIndex := currentImageIndex st;
     boundingBoxes := boundingBoxes st; isDrawing := isDrawing st;
     currentBox := currentBox st; availableClasses := classes;
     selectedClass := selectedClass st; selectedColor := selectedColor st;
     selectedAttributes := selectedAttributes st |}.

Definition set_selectedAttributes (attrs : list string) (st : Session)
  : Session :=
  {| images := images st; currentImageIndex := currentImageIndex st;
     boundingBoxes := boundingBoxes st; isDrawing := isDrawing st;
     currentBox := currentBox st; availableClasses := availableClasses st;
     selectedClass := selectedClass st; selectedColor := selectedColor st;
     selectedAttributes := attrs |}.

(** The page as [useState] initialises it. *)
Definition initialSession : Session :=
  {| images := []; currentImageIndex := 0; boundingBoxes := [];
     isDrawing := false; currentBox := None; availableClasses := ∅;
     selectedClass := "shrimp"; selectedColor := None;
     selectedAttributes := [] |}.

(** The updater of [toggleAttribute]. *)
Definition toggle (attrName : string) (prev : list string) : list string :=
  if bool_decide (attrName ∈ prev)
  then filter (λ a, a ≠ attrName) prev
  else prev ++ [attrName].

Definition toggleAttribute (attrName : string) (st : Session) : Session :=
  set_selectedAttributes (toggle attrName (selectedAttributes st)) st.

(** The fallback registry of [fetchAvailableClasses]. *)
Definition defaultShrimp : ClassInfo :=
  {| cls_id := 0; cls_name := "shrimp"; display_name := "Shrimp";
     cls_color := "#10B981"; cls_description := "Regular shrimp" |}.

Definition fallbackClasses : gmap string ClassInfo :=
  {[ "shrimp" := defaultShrimp ]}.

(** What [axios.get('/api/annotate/classes')] gave: an exception, or the body
    with its [success] flag and the members [types], [classes], [colors] and
    [attributes], each of which may be missing. *)
Inductive ClassesResponse :=
| ClassesThrew
| ClassesReply (success : bool)
    (types classes : option (gmap string ClassInfo))
    (colors attributes : option (gmap string AttributeInfo)).

(** [fetchAvailableClasses] from the point where the response has arrived.
    [None]: a successful body with neither [types] nor [classes] leaves the
    registry [undefined]. *)
Definition fetchAvailableClasses (r : ClassesResponse)
    (sp : Session * Palette) : option (Session * Palette) :=
  match r with
  | ClassesThrew => Some (set_availableClasses fallbackClasses sp.1, sp.2)
  | ClassesReply true types classes colors attributes =>
      match (match types with Some t => Some t | None => classes end) with
      | Some registry =>
          Some (set_availableClasses registry sp.1,
                {| colorAttributes := default ∅ colors;
                   additionalAttributes := default ∅ attributes |})
      | None => None
      end
  | ClassesReply false _ _ _ _ => Some sp
  end.

(** What [axios.get(`/api/annotate/${id}`)] gave: an exception, or the body
    with its [success] flag and its [annotation] member, whose
    [bounding_boxes] may be missing. *)
Inductive AnnotationResponse :=
| AnnotationThrew
| AnnotationReply (success : bool)
    (annotation : option (option (list BoundingBox))).

(** [loadCurrentImageAnnotation]; [r] is what the request gives when it is
    made.  With the index off the image list, reading the id of the current
    image throws inside the [try] and the [catch] empties the box list. *)
Definition loadCurrentImageAnnotation (r : AnnotationResponse) (st : Session)
  : Session :=
  if (length (images st) =? 0)%nat then st else
  match js_index (images st) (currentImageIndex st) with
  | None => set_boundingBoxes [] st
  | Some _ =>
      match r with
      | AnnotationReply true (Some bounding_boxes) =>
          set_boundingBoxes (default [] bounding_boxes) st
      | _ => set_boundingBoxes [] st
      end
  end.

(** The persistence endpoint answering a load with a record it was handed. *)
Definition replyWith (a : Annotation) : AnnotationResponse :=
  AnnotationReply true (Some (Some (bounding_boxes a))).

(** The pointer events bound to the canvas; [onMouseLeave] is bound to
    [handleMouseUp] as well. *)
Inductive PointerEvent :=
| MouseDown (dom : Dom) (e : MouseEvent)
| MouseMove (dom : Dom) (e : MouseEvent)
| MouseUp
| MouseLeave.

Definition onPointer (ev : PointerEvent) (st : Session) : Session :=
  match ev with
  | MouseDown dom e => handleMouseDown dom e st
  | MouseMove dom e => handleMouseMove dom e st
  | MouseUp | MouseLeave => handleMouseUp st
  end.

Definition pointerRun (evs : list PointerEvent) (st : Session) : Session :=
  fold_left (fun s ev => onPointer ev s) evs st.

Definition isRelease (ev : PointerEvent) : bool :=
  match ev with
  | MouseUp | MouseLeave => true
  | _ => false
  end.

Definition releases (evs : list PointerEvent) : nat :=
  length (filter (λ ev, isRelease ev = true) evs).

(** The "By Class" panel: [boundingBoxes.filter(box => box.label ===
    className).length] for every entry of the registry, rows with count 0
    left out, the panel shown only when the registry has more than one
    entry.  (The rows come in the order of the registry map, which stands
    for the order of [Object.entries].) *)
Definition classCount (className : string) (boxes : list BoundingBox) : nat :=
  length (filter (λ b, label b = className) boxes).

Definition classRows (classes : gmap string ClassInfo)
    (boxes : list BoundingBox) : list (string * nat) :=
  if (1 <? size classes)%nat
  then omap (λ entry : string * ClassInfo,
               let count := classCount entry.1 boxes in
               if (count =? 0)%nat then None
               else Some (display_name entry.2, count))
            (map_to_list classes)
  else [].

(** What the [drawCanvas()] call at the end of [handleMouseUp] paints.  The
    handler and the [drawCanvas] it calls belong to the render before the
    event, so they read the session as it was then, candidate included;
    nothing is painted when the handler returns early. *)
Definition paintedByMouseUp (dom : Dom) (st : Session)
  : option (list DrawInstr) :=
  if negb (isDrawing st) then None else
  match currentBox st with
  | None => None
  | Some _ => Some (drawCanvas dom st)
  end.

(** Clicks on attribute buttons, in order. *)
Definition toggleAll (attrNames : list string) (st : Session) : Session :=
  fold_left (fun s a => toggleAttribute a s) attrNames st.

(** The total of the counts the "By Class" panel shows. *)
Definition rowsTotal (classes : gmap string ClassInfo)
    (boxes : list BoundingBox) : nat :=
  sum_list ((classRows classes boxes).*2).

(** A drag in progress over two committed boxes, type "adult" selected: the
    candidate carries the label of mouse-down. *)
Definition adult_candidate : BoundingBox :=
  {| x := Fin (3 # 5); y := Fin (1 # 10);
     width := Fin (3 # 10); height := Fin (7 # 20);
     label := "shrimp"; confidence := Fin 1;
     class_id := None; color := None; attributes := None |}.

Definition adult_commit : Session :=
  set_currentBox (Some adult_candidate)
    (set_isDrawing true (setSelectedClass "adult" AnnotateSpec.session_twins)).

(** The drawing flag and the candidate agree. *)
Definition consistent (st : Session) : Prop :=
  isDrawing st = true ↔ is_Some (currentBox st).

End AnnotatePage.

(** ** The rest of the training page and of the progress modal *)

Module TrainingPage.
Import Training.

Record TrainingConfig := {
  model_type : string;
  epochs : Z;
  batch_size : Z;
  image_size : Z;
  learning_rate : Q;
  train_split : Q;
  val_split : Q
}.

(** [modelTypes[key].name]; [None] for a key the table does not have. *)
Definition modelName (key : string) : option string :=
  if bool_decide (key = "yolov8n") then Some "YOLOv8 Nano"
  else if bool_decide (key = "yolov8s") then Some "YOLOv8 Small"
  else if bool_decide (key = "yolov8m") then Some "YOLOv8 Medium"
  else if bool_decide (key = "yolov8l") then Some "YOLOv8 Large"
  else if bool_decide (key = "yolov8x") then Some "YOLOv8 Extra Large"
  else None.

(** The page state the start and stop handlers work on: the cells of
    [TrainPage], the configuration and [annotationStats.annotated_images]. *)
Record PageState := {
  page : TrainPage;
  config : TrainingConfig;
  annotated_images : Z
}.

(** The two callbacks [startTraining] hands to [setTimeout], with what their
    closures captured. *)
Inductive Callback :=
| VerifiedImages (annotated : Z)
| VerifiedModel (model : string).

(** What a handler does beside updating the state. *)
Inductive Action :=
| ToastError (msg : string)
| ToastLoading (msg : string)
| ToastSuccess (msg : string)
| PostStart (c : TrainingConfig)
| PostStop
| SetTimeout (ms : Z) (cb : Callback).

Definition isPostStart (a : Action) : bool :=
  match a with PostStart _ => true | _ => false end.

Definition with_page (p : TrainPage) (ps : PageState) : PageState :=
  {| page := p; config := config ps; annotated_images := annotated_images ps |}.

(** [{...prev, status, message, progress, current_epoch, total_epochs}] *)
Definition preparingStatus (total : Z) (prev : TrainingUpdate)
  : TrainingUpdate :=
  {| type := type prev; status := "preparing"; progress := 0;
     message := "Verifying dataset and configuration...";
     current_epoch := 0; total_epochs := total;
     loss := loss prev; accuracy := accuracy prev |}.

(** [{...prev, message, progress}] *)
Definition verifiedStatus (msg : string) (pct : Q) (prev : TrainingUpdate)
  : TrainingUpdate :=
  {| type := type prev; status := status prev; progress := pct;
     message := msg;
     current_epoch := current_epoch prev; total_epochs := total_epochs prev;
     loss := loss prev; accuracy := accuracy prev |}.

(** [{...prev, status: 'failed', message}] *)
Definition failedStatus (msg : string) (prev : TrainingUpdate)
  : TrainingUpdate :=
  {| type := type prev; status := "failed"; progress := progress prev;
     message := msg;
     current_epoch := current_epoch prev; total_epochs := total_epochs prev;
     loss := loss prev; accuracy := accuracy prev |}.

(** [startTraining] up to the point where it awaits the response. *)
Definition startTraining (ps : PageState) : PageState * list Action :=
  if (annotated_images ps <? 5)%Z
  then (ps, [ToastError "Need at least 5 annotated images to start training"])
  else
    (with_page
       {| showTrainingProgress := true; isTraining := true;
          trainingStatus :=
            preparingStatus (epochs (config ps)) (trainingStatus (page ps)) |}
       ps,
     [ToastLoading "Verifying training setup...";
      SetTimeout 500 (VerifiedImages (annotated_images ps));
      SetTimeout 1000 (VerifiedModel (model_type (config ps)));
      PostStart (config ps)]).

(** A timeout callback of [startTraining] runs.  [None]: the model key is not
    in the table and the status updater throws. *)
Definition runCallback (cb : Callback) (ps : PageState)
  : option (PageState * list Action) :=
  match cb with
  | VerifiedImages annotated =>
      Some (with_page
              {| showTrainingProgress := showTrainingProgress (page ps);
                 isTraining := isTraining (page ps);
                 trainingStatus :=
                   verifiedStatus
                     ("✓ Verified " ++ Z_to_string annotated ++
                      " annotated images") 5
                     (trainingStatus (page ps)) |} ps,
            [ToastLoading "Checking dataset format..."])
  | VerifiedModel model =>
      match modelName model with
      | Some name =>
          Some (with_page
                  {| showTrainingProgress := showTrainingProgress (page ps);
                     isTraining := isTraining (page ps);
                     trainingStatus :=
                       verifiedStatus
                         ("✓ Verified model configuration (" ++ name ++ ")")
                         10 (trainingStatus (page ps)) |} ps,
                [ToastLoading "Initializing model trainer..."])
      | None => None
      end
  end.

(** What [axios.post('/api/train/start', config)] gave: the body with its
    [success] flag and [status] member, or an exception with the [detail] of
    its response, if any. *)
Inductive StartResponse :=
| StartReply (success : bool) (st : option TrainingUpdate)
| StartThrew (detail : option string).

(** [startTraining] from the point where the response has arrived. *)
Definition onStartResponse (r : StartResponse) (ps : PageState)
  : PageState * list Action :=
  match r with
  | StartReply true st =>
      (match st with
       | Some s =>
           with_page
             {| showTrainingProgress := showTrainingProgress (page ps);
                isTraining := isTraining (page ps);
                trainingStatus := s |} ps
       | None => ps
       end,
       [ToastSuccess "Training started successfully!"])
  | StartReply false _ => (ps, [])
  | StartThrew detail =>
      let msg := str_or (default "" detail) "Failed to start training" in
      (with_page
         {| showTrainingProgress := false; isTraining := false;
            trainingStatus := failedStatus msg (trainingStatus (page ps)) |}
         ps,
       [ToastError msg])
  end.

(** [stopTraining]: the request, and what follows its outcome. *)
Definition stopTraining (ps : PageState) : PageState * list Action :=
  (ps, [PostStop]).

Definition onStopResponse (ok : bool) (ps : PageState)
  : PageState * list Action :=
  if ok
  then (with_page
          {| showTrainingProgress := showTrainingProgress (page ps);
             isTraining := false;
             trainingStatus := trainingStatus (page ps) |} ps,
        [ToastSuccess "Training stopped"])
  else (ps, [ToastError "Failed to stop training"]).

(** The status poll of the page answered. *)
Definition onStatusPoll (r : PollResult) (ps : PageState) : PageState :=
  with_page (onFetchResult r (page ps)) ps.

(** [onClose] of the modal. *)
Definition closeModal (ps : PageState) : PageState :=
  with_page
    {| showTrainingProgress := false; isTraining := isTraining (page ps);
       trainingStatus := trainingStatus (page ps) |} ps.

Definition runCallbacks (cbs : list Callback) (ps : PageState)
  : option PageState :=
  foldl (fun acc cb =>
           match acc with
           | Some s => fst <$> runCallback cb s
           | None => None
           end) (Some ps) cbs.

(** The page re-renders the modal with its [showTrainingProgress]. *)
Definition renderModal (ps : PageState) (m : Progress) : Progress * nat :=
  step (SetVisible (showTrainingProgress (page ps))) m.

(** The status an event brings to the modal, if it brings one. *)
Definition observed (ev : Event) : option TrainingUpdate :=
  match ev with
  | Response _ (Json true (Some s)) => Some s
  | _ => None
  end.

Definition lastObserved (evs : list Event) : option TrainingUpdate :=
  last (omap observed evs).

(** The page as [useState] initialises it. *)
Definition initialStatus : TrainingUpdate :=
  {| type := ""; status := "idle"; progress := 0;
     message := "Ready to train"; current_epoch := 0; total_epochs := 0;
     loss := None; accuracy := None |}.

Definition initialConfig : TrainingConfig :=
  {| model_type := "yolov8n"; epochs := 100; batch_size := 16;
     image_size := 640; learning_rate := 1 # 100;
     train_split := 8 # 10; val_split := 2 # 10 |}.

Definition initialPage (annotated : Z) : PageState :=
  {| page := {| showTrainingProgress := false; isTraining := false;
                trainingStatus := initialStatus |};
     config := initialConfig; annotated_images := annotated |}.

(** The page after a start with 7 annotated images whose request failed
    without detail and whose model callback fired afterwards. *)
Definition failedStartPage : PageState :=
  with_page
    {| showTrainingProgress := false; isTraining := false;
       trainingStatus :=
         verifiedStatus "✓ Verified model configuration (YOLOv8 Nano)" 10
           (failedStatus "Failed to start training"
              (preparingStatus 100 initialStatus)) |}
    (initialPage 7).

End TrainingPage.

(** * Properties *)

Local Open Scope list_scope.

(** ** Arithmetic of the number model *)

Section jsnum_facts.

Lemma same_value_refl a : a ≈ a.
Proof. destruct a; simpl; auto with qarith. Qed.

Lemma same_value_sym a b : a ≈ b → b ≈ a.
Proof. destruct a, b; simpl; auto with qarith. Qed.

Lemma same_value_trans a b c : a ≈ b → b ≈ c → a ≈ c.
Proof.
  destruct a, b, c; simpl; try tauto.
  intros H1 H2. now rewrite H1.
Qed.

Lemma jdiv_fin p q : ¬ (q == 0)%Q → jdiv (Fin p) (Fin q) = Fin (p / q).
Proof.
  intros Hq. simpl. destruct (Qeq_bool q 0) eqn:E; [|reflexivity].
  apply Qeq_bool_iff in E. contradiction.
Qed.

Lemma jdiv_by_zero a q : (q == 0)%Q → is_finite (jdiv a (Fin q)) = false.
Proof.
  intros Hq. destruct a as [p| | |]; simpl.
  - apply Qeq_bool_iff in Hq. rewrite Hq. now destruct (p ?= 0)%Q.
  - now destruct (q ?= 0)%Q.
  - now destruct (q ?= 0)%Q.
  - reflexivity.
Qed.

Lemma jlt_fin p q : jlt (Fin p) (Fin q) = true ↔ (p < q)%Q.
Proof.
  simpl. destruct (Qcompare_spec p q) as [H|H|H]; split; try congruence; lra.
Qed.

Lemma jlt_fin_false p q : jlt (Fin p) (Fin q) = false ↔ (q <= p)%Q.
Proof.
  simpl. destruct (Qcompare_spec p q) as [H|H|H]; split; try congruence; lra.
Qed.

Lemma jgt_fin p q : jgt (Fin p) (Fin q) = true ↔ (q < p)%Q.
Proof. apply jlt_fin. Qed.

End jsnum_facts.

(** ** The pointer conversion *)

Section pointer_conversion.
Import Annotate AnnotateSpec.

Lemma normalizedPoint_eq canvas e :
  normalizedPoint canvas e =
    (jdiv (canvasPoint canvas e).1 (canvas_width canvas),
     jdiv (canvasPoint canvas e).2 (canvas_height canvas)).
Proof. reflexivity. Qed.

(** What [drawCanvas] paints last once a candidate exists. *)
Lemma drawCanvas_candidate canvas dom st cb :
  canvasRef dom = Some canvas → imageRef dom = true →
  context2d canvas = true → currentBox st = Some cb →
  last (drawCanvas dom st) =
    Some (drawBox (availableClasses st) canvas (length (boundingBoxes st)) cb).
Proof.
  intros Hc Hi Hx Hb. unfold drawCanvas, allBoxes. rewrite Hc, Hi, Hx, Hb.
  rewrite imap_app. simpl. rewrite last_snoc. do 2 f_equal. lia.
Qed.

Lemma handleMouseDown_candidate canvas dom e st :
  canvasRef dom = Some canvas → imageRef dom = true →
  ∃ cb, currentBox (handleMouseDown dom e st) = Some cb ∧
        isDrawing (handleMouseDown dom e st) = true ∧
        boundingBoxes (handleMouseDown dom e st) = boundingBoxes st ∧
        x cb = (normalizedPoint canvas e).1 ∧
        y cb = (normalizedPoint canvas e).2 ∧
        width cb = Fin 0 ∧ height cb = Fin 0.
Proof.
  intros Hc Hi. unfold handleMouseDown. rewrite Hc, Hi.
  destruct (normalizedPoint canvas e) as [nx ny]. simpl.
  eexists. repeat split; reflexivity.
Qed.

(** C8.  For every pointer position [(px, py)] in canvas pixels and every
    canvas of positive width and height: [handleMouseDown] stores the
    position divided by the canvas dimensions, and [drawCanvas], multiplying
    by the same dimensions, paints the candidate at [(px, py)] again (over
    exact arithmetic). *)
Theorem pointer_round_trip dom canvas e st cw ch px py :
  canvasRef dom = Some canvas → imageRef dom = true →
  context2d canvas = true →
  canvas_width canvas = Fin cw → canvas_height canvas = Fin ch →
  (0 < cw)%Q → (0 < ch)%Q →
  (canvasPoint canvas e).1 ≈ Fin px → (canvasPoint canvas e).2 ≈ Fin py →
  (normalizedPoint canvas e).1 ≈ Fin (px / cw) ∧
  (normalizedPoint canvas e).2 ≈ Fin (py / ch) ∧
  ∃ d, last (drawCanvas dom (handleMouseDown dom e st)) = Some d ∧
       rectX d ≈ Fin px ∧ rectY d ≈ Fin py.
Proof.
  intros Hc Hi Hx Hw Hh Hcw Hch Hpx Hpy.
  destruct (canvasPoint canvas e) as [a b] eqn:Hp. cbn [fst snd] in Hpx, Hpy.
  destruct a as [p| | |]; try contradiction.
  destruct b as [q| | |]; try contradiction.
  simpl in Hpx, Hpy.
  assert (Hn : normalizedPoint canvas e = (Fin (p / cw), Fin (q / ch))).
  { rewrite normalizedPoint_eq, Hp, Hw, Hh. cbn [fst snd].
    now rewrite !jdiv_fin by lra. }
  rewrite Hn. cbn [fst snd same_value].
  split; [now rewrite Hpx|]. split; [now rewrite Hpy|].
  destruct (handleMouseDown_candidate canvas dom e st Hc Hi)
    as (cb & Hcb & _ & _ & Hxcb & Hycb & _).
  eexists. split; [eapply drawCanvas_candidate; eauto|].
  cbn [drawBox rectX rectY]. rewrite Hxcb, Hycb, Hn, Hw, Hh.
  cbn [fst snd jmul same_value]. split; [rewrite <- Hpx|rewrite <- Hpy]; field; lra.
Qed.

Lemma pointer_round_trip_witness :
  (normalizedPoint canvas200 (pointer 50 80)).1 ≈ Fin (50 / 200) ∧
  (normalizedPoint canvas200 (pointer 50 80)).2 ≈ Fin (80 / 200) ∧
  ∃ d, last (drawCanvas (mkDom canvas200)
               (handleMouseDown (mkDom canvas200) (pointer 50 80) session0))
       = Some d ∧ rectX d ≈ Fin 50 ∧ rectY d ≈ Fin 80.
Proof.
  apply (pointer_round_trip (mkDom canvas200) canvas200 (pointer 50 80)
           session0 200 200 50 80); reflexivity.
Defined.

End pointer_conversion.

(** ** A canvas without extent *)

Section zero_canvas.
Import Annotate AnnotateSpec.

Lemma is_zero_fin a : is_zero a = true → ∃ q, a = Fin q ∧ (q == 0)%Q.
Proof.
  destruct a as [q| | |]; simpl; try discriminate.
  intros H. exists q. split; [reflexivity|]. now apply Qeq_bool_iff.
Qed.

Lemma zero_scale w r : (w == 0)%Q → zero_or_nan (jdiv (Fin w) r).
Proof.
  intros Hw. destruct r as [q| | |]; simpl; try reflexivity.
  destruct (Qeq_bool q 0).
  - apply Qeq_alt in Hw. now rewrite Hw.
  - simpl. rewrite Hw. unfold Qdiv. ring.
Qed.

Lemma zero_or_nan_mul d s : zero_or_nan s → zero_or_nan (jmul d s).
Proof.
  destruct s as [q| | |]; simpl; try contradiction.
  - intros Hq. destruct d as [p| | |]; simpl; trivial.
    + rewrite Hq. ring.
    + apply Qeq_alt in Hq. now rewrite Hq.
    + apply Qeq_alt in Hq. now rewrite Hq.
  - intros _. now destruct d.
Qed.

Lemma zero_or_nan_div_zero p w :
  zero_or_nan p → (w == 0)%Q → jdiv p (Fin w) = NaN.
Proof.
  intros Hp Hw. destruct p as [q| | |]; simpl in *; try contradiction; trivial.
  apply Qeq_bool_iff in Hw. rewrite Hw.
  apply Qeq_alt in Hp. now rewrite Hp.
Qed.

(** On a canvas of width zero the normalised abscissa is [NaN], whatever the
    pointer and the layout box are; likewise for the height. *)
Lemma normalizedX_zero_width canvas e :
  is_zero (canvas_width canvas) = true → (normalizedPoint canvas e).1 = NaN.
Proof.
  intros Hz. apply is_zero_fin in Hz as (w & Hw & Hw0).
  rewrite normalizedPoint_eq. cbn [fst]. unfold canvasPoint. cbn [fst].
  rewrite Hw. apply zero_or_nan_div_zero; [|assumption].
  apply zero_or_nan_mul. now apply zero_scale.
Qed.

Lemma normalizedY_zero_height canvas e :
  is_zero (canvas_height canvas) = true → (normalizedPoint canvas e).2 = NaN.
Proof.
  intros Hz. apply is_zero_fin in Hz as (w & Hw & Hw0).
  rewrite normalizedPoint_eq. cbn [snd]. unfold canvasPoint. cbn [snd].
  rewrite Hw. apply zero_or_nan_div_zero; [|assumption].
  apply zero_or_nan_mul. now apply zero_scale.
Qed.

Lemma jsub_nan_r a : jsub a NaN = NaN.
Proof. now destruct a. Qed.

(** A poisoned candidate stays poisoned under [handleMouseMove]. *)
Lemma handleMouseMove_poisoned dom e st cb :
  currentBox st = Some cb → poisoned cb →
  boundingBoxes (handleMouseMove dom e st) = boundingBoxes st ∧
  ∃ cb', currentBox (handleMouseMove dom e st) = Some cb' ∧ poisoned cb'.
Proof.
  intros Hcb Hp. unfold handleMouseMove.
  destruct (isDrawing st); cbn [negb]; [|eauto].
  rewrite Hcb. destruct (canvasRef dom) as [canvas|]; [|eauto].
  destruct (normalizedPoint canvas e) as [nx ny]. cbn.
  split; [reflexivity|]. eexists. split; [reflexivity|].
  destruct Hp as [[Hx _]|[Hy _]]; [left|right]; cbn.
  - rewrite Hx, jsub_nan_r. cbn. split; reflexivity.
  - rewrite Hy, jsub_nan_r. cbn. split; reflexivity.
Qed.

Lemma moves_poisoned mvs st cb :
  currentBox st = Some cb → poisoned cb →
  boundingBoxes (moves mvs st) = boundingBoxes st ∧
  ∃ cb', currentBox (moves mvs st) = Some cb' ∧ poisoned cb'.
Proof.
  revert st cb. induction mvs as [|[dom e] mvs IH]; intros st cb Hcb Hp.
  - cbn. eauto.
  - cbn [moves fold_left fst snd].
    destruct (handleMouseMove_poisoned dom e st cb Hcb Hp) as (Hb & cb' & Hcb' & Hp').
    destruct (IH _ _ Hcb' Hp') as (Hb2 & cb2 & ? & ?).
    unfold moves in *. rewrite Hb2, Hb. eauto.
Qed.

Lemma handleMouseUp_poisoned st cb :
  currentBox st = Some cb → poisoned cb →
  boundingBoxes (handleMouseUp st) = boundingBoxes st.
Proof.
  intros Hcb Hp. unfold handleMouseUp.
  destruct (isDrawing st); cbn [negb]; [|reflexivity].
  rewrite Hcb.
  assert (jgt (width cb) min_size && jgt (height cb) min_size = false) as ->.
  { destruct Hp as [[_ H]|[_ H]]; rewrite H; [reflexivity|apply andb_false_r]. }
  reflexivity.
Qed.

(** C4 (as the code has it).  When the canvas width (height) is zero, the
    conversion of [handleMouseDown] and [handleMouseMove] raises nothing and
    gives [NaN] (not 0) as normalised abscissa (ordinate); a gesture begun
    on such a canvas stores no box, whatever moves follow, so the [NaN] does
    not reach the box list. *)
Theorem zero_canvas_nan_not_stored dom canvas e mvs st :
  canvasRef dom = Some canvas → imageRef dom = true →
  is_zero (canvas_width canvas) || is_zero (canvas_height canvas) = true →
  (is_zero (canvas_width canvas) = true →
     (normalizedPoint canvas e).1 = NaN) ∧
  (is_zero (canvas_height canvas) = true →
     (normalizedPoint canvas e).2 = NaN) ∧
  boundingBoxes (gesture (dom, e) mvs st) = boundingBoxes st.
Proof.
  intros Hc Hi Hz.
  split; [apply normalizedX_zero_width|].
  split; [apply normalizedY_zero_height|].
  unfold gesture. cbn [fst snd].
  destruct (handleMouseDown_candidate canvas dom e st Hc Hi)
    as (cb & Hcb & _ & Hb & Hx & Hy & Hw & Hh).
  assert (Hp : poisoned cb).
  { apply orb_true_iff in Hz as [Hz|Hz]; [left|right].
    - rewrite Hx, Hw. split; [now apply normalizedX_zero_width|reflexivity].
    - rewrite Hy, Hh. split; [now apply normalizedY_zero_height|reflexivity]. }
  destruct (moves_poisoned mvs _ _ Hcb Hp) as (Hb2 & cb2 & Hcb2 & Hp2).
  rewrite (handleMouseUp_poisoned _ _ Hcb2 Hp2). congruence.
Qed.

Lemma zero_canvas_nan_not_stored_witness :
  (is_zero (canvas_width canvas_zero_width) = true →
     (normalizedPoint canvas_zero_width (pointer 30 40)).1 = NaN) ∧
  (is_zero (canvas_height canvas_zero_width) = true →
     (normalizedPoint canvas_zero_width (pointer 30 40)).2 = NaN) ∧
  boundingBoxes
    (gesture (mkDom canvas_zero_width, pointer 30 40)
       [(mkDom canvas200, pointer 120 130)] session0)
  = boundingBoxes session0.
Proof.
  apply (zero_canvas_nan_not_stored (mkDom canvas_zero_width)
           canvas_zero_width); reflexivity.
Defined.

(** On a canvas of width zero the conversion does not return [(0, 0)]. *)
Lemma zero_canvas_not_origin :
  ¬ ((normalizedPoint canvas_zero_width (pointer 30 40)).1 ≈ Fin 0 ∧
     (normalizedPoint canvas_zero_width (pointer 30 40)).2 ≈ Fin 0).
Proof. vm_compute. tauto. Qed.

End zero_canvas.

(** ** No [NaN] in the box list *)

Section no_nan.
Import Annotate AnnotateSpec.

Lemma jsub_not_nan a b : jsub a b ≠ NaN → a ≠ NaN ∧ b ≠ NaN.
Proof. destruct a, b; cbn; intros H; split; congruence. Qed.

Lemma jabs_not_nan a : jabs a ≠ NaN → a ≠ NaN.
Proof. destruct a; cbn; congruence. Qed.

Lemma jgt_not_nan a b : jgt a b = true → a ≠ NaN.
Proof. destruct a, b; cbn; congruence. Qed.

(** One coordinate of [handleMouseMove]: an extent that is a number comes
    with an origin that is a number. *)
Lemma move_axis_no_nan n o :
  jabs (jsub n o) = NaN ∨
  (if jlt (jsub n o) (Fin 0) then n else o) ≠ NaN.
Proof.
  destruct (jabs (jsub n o)) eqn:E; try (now left); right;
    (assert (Hn : jabs (jsub n o) ≠ NaN) by (rewrite E; discriminate);
     apply jabs_not_nan, jsub_not_nan in Hn as [? ?];
     now destruct (jlt (jsub n o) (Fin 0))).
Qed.

Lemma handleMouseMove_settled dom e st cb :
  currentBox st = Some cb → settled cb →
  boundingBoxes (handleMouseMove dom e st) = boundingBoxes st ∧
  ∃ cb', currentBox (handleMouseMove dom e st) = Some cb' ∧ settled cb'.
Proof.
  intros Hcb Hs. unfold handleMouseMove.
  destruct (isDrawing st); cbn [negb]; [|eauto].
  rewrite Hcb. destruct (canvasRef dom) as [canvas|]; [|eauto].
  destruct (normalizedPoint canvas e) as [nx ny].
  cbn [boundingBoxes currentBox set_currentBox].
  split; [reflexivity|]. eexists. split; [reflexivity|].
  right. cbn [x y width height]. split; apply move_axis_no_nan.
Qed.

Lemma moves_settled mvs st cb :
  currentBox st = Some cb → settled cb →
  boundingBoxes (moves mvs st) = boundingBoxes st ∧
  ∃ cb', currentBox (moves mvs st) = Some cb' ∧ settled cb'.
Proof.
  revert st cb. induction mvs as [|[dom e] mvs IH]; intros st cb Hcb Hs.
  - cbn. eauto.
  - destruct (handleMouseMove_settled dom e st cb Hcb Hs)
      as (Hb & cb' & Hcb' & Hs').
    destruct (IH _ _ Hcb' Hs') as (Hb2 & cb2 & ? & ?).
    unfold moves in *. cbn [fold_left fst snd]. rewrite Hb2, Hb. eauto.
Qed.

Lemma settled_big_enough cb :
  settled cb → big_enough cb = true → no_nan cb.
Proof.
  unfold big_enough. rewrite andb_true_iff. intros Hs [Hw Hh].
  destruct Hs as [[E _]|[Hx Hy]].
  - rewrite E in Hw. discriminate.
  - pose proof (jgt_not_nan _ _ Hw). pose proof (jgt_not_nan _ _ Hh).
    unfold no_nan. intuition.
Qed.

(** A gesture whose mouse-down started a candidate stores no box with a
    [NaN] in its geometry, whatever the canvas is at each of its events. *)
Lemma gesture_stores_no_nan dom canvas e mvs st :
  canvasRef dom = Some canvas → imageRef dom = true →
  boundingBoxes (gesture (dom, e) mvs st) = boundingBoxes st ∨
  ∃ b, boundingBoxes (gesture (dom, e) mvs st) = boundingBoxes st ++ [b] ∧
       no_nan b.
Proof.
  intros Hc Hi. unfold gesture. cbn [fst snd].
  destruct (handleMouseDown_candidate canvas dom e st Hc Hi)
    as (cb & Hcb & _ & Hb & _ & _ & Hw & Hh).
  destruct (moves_settled mvs _ cb Hcb) as (Hb1 & cb1 & Hcb1 & Hs1);
    [left; now split|].
  unfold handleMouseUp.
  destruct (isDrawing (moves mvs (handleMouseDown dom e st)));
    cbn [negb]; [|left; congruence].
  rewrite Hcb1. fold (big_enough cb1).
  destruct (big_enough cb1) eqn:Hbig;
    cbn [boundingBoxes set_currentBox set_isDrawing set_boundingBoxes];
    [right|left; congruence].
  eexists. split; [now rewrite Hb1, Hb|].
  exact (settled_big_enough cb1 Hs1 Hbig).
Qed.

End no_nan.

(** ** Pointer-up: the commit rule *)

Section commit_rule.
Import Annotate AnnotateSpec.

Lemma big_enough_fin cb w h :
  width cb = Fin w → height cb = Fin h →
  big_enough cb = true ↔ ((1 # 100) < w ∧ (1 # 100) < h)%Q.
Proof.
  intros Hw Hh. unfold big_enough, min_size. rewrite Hw, Hh.
  rewrite andb_true_iff, !jgt_fin. reflexivity.
Qed.

Lemma handleMouseUp_idle st : isDrawing st = false → handleMouseUp st = st.
Proof. intros H. unfold handleMouseUp. now rewrite H. Qed.

Lemma snoc_neq {A} (l : list A) a : l ++ [a] ≠ l.
Proof.
  intros H. apply (f_equal length) in H. rewrite length_app in H.
  simpl in H. lia.
Qed.

Lemma handleMouseUp_drawing st cb :
  isDrawing st = true → currentBox st = Some cb →
  boundingBoxes (handleMouseUp st) =
    (if big_enough cb then boundingBoxes st ++ [newBox st cb]
     else boundingBoxes st) ∧
  isDrawing (handleMouseUp st) = false ∧
  currentBox (handleMouseUp st) = None.
Proof.
  intros Hd Hcb. unfold handleMouseUp, big_enough. rewrite Hd, Hcb.
  cbn [negb].
  now destruct (jgt (width cb) min_size && jgt (height cb) min_size).
Qed.

(** C6.  On pointer-up while drawing, the candidate is appended to the box
    list (with the selected type, colour and attributes) exactly when its
    width and its height both exceed 0.01; otherwise the box list is left as
    it was; in both cases the session is idle afterwards and no error
    arises. *)
Theorem pointer_up_commit_rule st cb :
  isDrawing st = true → currentBox st = Some cb →
  boundingBoxes (handleMouseUp st) =
    (if big_enough cb then boundingBoxes st ++ [newBox st cb]
     else boundingBoxes st) ∧
  (boundingBoxes (handleMouseUp st) ≠ boundingBoxes st ↔
     big_enough cb = true) ∧
  (∀ w h, width cb = Fin w → height cb = Fin h →
     big_enough cb = true ↔ ((1 # 100) < w ∧ (1 # 100) < h)%Q) ∧
  (x (newBox st cb), y (newBox st cb), width (newBox st cb),
   height (newBox st cb)) = (x cb, y cb, width cb, height cb) ∧
  isDrawing (handleMouseUp st) = false ∧
  currentBox (handleMouseUp st) = None.
Proof.
  intros Hd Hcb.
  destruct (handleMouseUp_drawing st cb Hd Hcb) as (Hb & Hidle & Hnone).
  split; [exact Hb|]. split.
  { rewrite Hb. destruct (big_enough cb); split; try congruence.
    intros _. apply snoc_neq. }
  split; [intros w h; apply big_enough_fin|].
  split; [reflexivity|]. split; assumption.
Qed.

Lemma pointer_up_commit_rule_witness :
  boundingBoxes
    (handleMouseUp (set_currentBox (Some (box "shrimp" (1#4) (1#4) (1#4) (1#200)))
                      (set_isDrawing true session0)))
  = boundingBoxes session0.
Proof.
  exact (proj1 (pointer_up_commit_rule
                  (set_currentBox (Some (box "shrimp" (1#4) (1#4) (1#4) (1#200)))
                     (set_isDrawing true session0))
                  (box "shrimp" (1#4) (1#4) (1#4) (1#200))
                  eq_refl eq_refl)).
Defined.

(** The earlier revision follows the same rule and commits the candidate
    unchanged. *)
Lemma pointer_up_commit_rule_v1 st cb :
  isDrawing st = true → currentBox st = Some cb →
  boundingBoxes (AnnotateV1.handleMouseUp st) =
    (if big_enough cb then boundingBoxes st ++ [cb] else boundingBoxes st) ∧
  isDrawing (AnnotateV1.handleMouseUp st) = false ∧
  currentBox (AnnotateV1.handleMouseUp st) = None.
Proof.
  intros Hd Hcb. unfold AnnotateV1.handleMouseUp, big_enough.
  rewrite Hd, Hcb. cbn [negb].
  now destruct (jgt (width cb) min_size && jgt (height cb) min_size).
Qed.

End commit_rule.

(** ** Drag gestures *)

Section gestures.
Import Annotate AnnotateSpec.

(** Within a laid out canvas the normalised pointer lies in the unit
    square. *)
Lemma normalizedPoint_inside canvas e :
  laid_out canvas → pointer_inside canvas e →
  ∃ nx ny, normalizedPoint canvas e = (Fin nx, Fin ny) ∧
           (0 <= nx <= 1)%Q ∧ (0 <= ny <= 1)%Q.
Proof.
  intros [(cw & Hcw & ?) (ch & Hch & ?) (rw & Hrw & ?) (rh & Hrh & ?)]
         (cx & cy & l & t & rw' & rh' & Hcx & Hcy & Hl & Ht & Hrw' & Hrh' & Hx & Hy).
  rewrite Hrw in Hrw'. rewrite Hrh in Hrh'.
  injection Hrw' as <-. injection Hrh' as <-.
  unfold normalizedPoint, canvasPoint.
  rewrite Hcw, Hch, Hrw, Hrh, Hcx, Hcy, Hl, Ht.
  rewrite !jdiv_fin by lra. cbn [jsub jmul]. rewrite !jdiv_fin by lra.
  eexists _, _. split; [reflexivity|].
  assert (E1 : ((cx - l) * (cw / rw) / cw == (cx - l) / rw)%Q) by (field; lra).
  assert (E2 : ((cy - t) * (ch / rh) / ch == (cy - t) / rh)%Q) by (field; lra).
  rewrite E1, E2. repeat split.
  - apply Qle_shift_div_l; lra.
  - apply Qle_shift_div_r; lra.
  - apply Qle_shift_div_l; lra.
  - apply Qle_shift_div_r; lra.
Qed.

(** One coordinate of [handleMouseMove]: from an origin [b] and a pointer
    [n], both in [0, 1], the new origin and extent stay in [0, 1]. *)
Lemma move_axis_bounds n b :
  (0 <= n <= 1)%Q → (0 <= b <= 1)%Q →
  ∃ o, (if jlt (jsub (Fin n) (Fin b)) (Fin 0) then Fin n else Fin b) = Fin o ∧
       (0 <= o)%Q ∧ (0 <= Qabs (n - b))%Q ∧ (o + Qabs (n - b) <= 1)%Q.
Proof.
  intros Hn Hb. cbn [jsub].
  destruct (jlt (Fin (n - b)) (Fin 0)) eqn:E.
  - apply jlt_fin in E. exists n. split; [reflexivity|].
    pose proof (Qabs_neg (n - b)). lra.
  - apply jlt_fin_false in E. exists b. split; [reflexivity|].
    pose proof (Qabs_pos (n - b)). lra.
Qed.

(** The invariant of the candidate during a gesture inside the canvas. *)
Lemma handleMouseDown_in_unit de st :
  within_canvas de → imageRef de.1 = true →
  boundingBoxes (handleMouseDown de.1 de.2 st) = boundingBoxes st ∧
  isDrawing (handleMouseDown de.1 de.2 st) = true ∧
  ∃ cb, currentBox (handleMouseDown de.1 de.2 st) = Some cb ∧
        in_unit_square cb.
Proof.
  intros (canvas & Hc & Hlo & Hin) Hi.
  destruct (handleMouseDown_candidate canvas _ de.2 st Hc Hi)
    as (cb & Hcb & Hd & Hb & Hx & Hy & Hw & Hh).
  destruct (normalizedPoint_inside _ _ Hlo Hin) as (nx & ny & Hn & ? & ?).
  rewrite Hn in Hx, Hy. cbn [fst snd] in Hx, Hy.
  split; [exact Hb|]. split; [exact Hd|].
  exists cb. split; [exact Hcb|].
  exists nx, ny, 0%Q, 0%Q. repeat split; try assumption; lra.
Qed.

Lemma handleMouseMove_in_unit de st cb :
  within_canvas de → isDrawing st = true →
  currentBox st = Some cb → in_unit_square cb →
  boundingBoxes (handleMouseMove de.1 de.2 st) = boundingBoxes st ∧
  isDrawing (handleMouseMove de.1 de.2 st) = true ∧
  ∃ cb', currentBox (handleMouseMove de.1 de.2 st) = Some cb' ∧
         in_unit_square cb'.
Proof.
  intros (canvas & Hc & Hlo & Hin) Hd Hcb
         (bx & by_ & w & h & Hx & Hy & Hw & Hh & ? & ? & ? & ? & ? & ?).
  destruct (normalizedPoint_inside _ _ Hlo Hin) as (nx & ny & Hn & ? & ?).
  unfold handleMouseMove. rewrite Hd, Hcb, Hc, Hn. cbn [negb].
  cbn [boundingBoxes isDrawing currentBox set_currentBox].
  split; [reflexivity|]. split; [exact Hd|].
  eexists. split; [reflexivity|].
  rewrite Hx, Hy.
  destruct (move_axis_bounds nx bx) as (ox & Hox & ? & ? & ?); [lra..|].
  destruct (move_axis_bounds ny by_) as (oy & Hoy & ? & ? & ?); [lra..|].
  exists ox, oy, (Qabs (nx - bx)), (Qabs (ny - by_)).
  cbn [x y width height]. rewrite Hox, Hoy. cbn [jsub jabs].
  repeat split; assumption.
Qed.

Lemma moves_in_unit mvs st cb :
  Forall within_canvas mvs → isDrawing st = true →
  currentBox st = Some cb → in_unit_square cb →
  boundingBoxes (moves mvs st) = boundingBoxes st ∧
  isDrawing (moves mvs st) = true ∧
  ∃ cb', currentBox (moves mvs st) = Some cb' ∧ in_unit_square cb'.
Proof.
  intros Hall. revert st cb.
  induction Hall as [|de mvs Hde _ IH]; intros st cb Hd Hcb Hu.
  - cbn. eauto.
  - destruct (handleMouseMove_in_unit de st cb Hde Hd Hcb Hu)
      as (Hb1 & Hd1 & cb1 & Hcb1 & Hu1).
    destruct (IH _ _ Hd1 Hcb1 Hu1) as (Hb2 & Hd2 & cb2 & Hcb2 & Hu2).
    unfold moves in *. cbn [fold_left]. rewrite Hb2, Hb1. eauto.
Qed.

(** Whatever the moves of a gesture inside the canvas, and whatever its
    direction, a box it commits has non-negative extents and lies in the
    unit square. *)
Lemma gesture_commits_in_unit down mvs st :
  within_canvas down → imageRef down.1 = true → Forall within_canvas mvs →
  boundingBoxes (gesture down mvs st) = boundingBoxes st ∨
  ∃ b, boundingBoxes (gesture down mvs st) = boundingBoxes st ++ [b] ∧
       in_unit_square b ∧ big_enough b = true.
Proof.
  intros Hdown Hi Hall. unfold gesture.
  destruct (handleMouseDown_in_unit down st Hdown Hi) as (Hb0 & Hd0 & cb0 & Hcb0 & Hu0).
  destruct (moves_in_unit mvs _ _ Hall Hd0 Hcb0 Hu0) as (Hb1 & Hd1 & cb1 & Hcb1 & Hu1).
  destruct (handleMouseUp_drawing _ _ Hd1 Hcb1) as (Hup & _).
  rewrite Hup, Hb1, Hb0.
  destruct (big_enough cb1) eqn:Hbig; [right|left; reflexivity].
  eexists. split; [reflexivity|]. split; [exact Hu1 | exact Hbig].
Qed.

Lemma same_box_refl b : same_box b b.
Proof. repeat split; apply same_value_refl. Qed.

(** One coordinate of a single-move drag: the origin does not depend on
    which of the two corners the drag starts from. *)
Lemma axis_origin_symmetric a b :
  (if jlt (jsub (Fin b) (Fin a)) (Fin 0) then Fin b else Fin a) ≈
  (if jlt (jsub (Fin a) (Fin b)) (Fin 0) then Fin a else Fin b).
Proof.
  cbn [jsub].
  destruct (jlt (Fin (b - a)) (Fin 0)) eqn:E1;
    destruct (jlt (Fin (a - b)) (Fin 0)) eqn:E2;
    try apply jlt_fin in E1; try apply jlt_fin in E2;
    try apply jlt_fin_false in E1; try apply jlt_fin_false in E2;
    simpl; lra.
Qed.

(** A drag that reaches the opposite corner in a single move stores the same
    box whichever corner it starts from. *)
Lemma single_move_drag_symmetric dom canvas eA eB st :
  canvasRef dom = Some canvas → imageRef dom = true →
  laid_out canvas → pointer_inside canvas eA → pointer_inside canvas eB →
  Forall2 same_box
    (boundingBoxes (gesture (dom, eA) [(dom, eB)] st))
    (boundingBoxes (gesture (dom, eB) [(dom, eA)] st)).
Proof.
  intros Hc Hi Hlo HA HB.
  destruct (normalizedPoint_inside _ _ Hlo HA) as (ax & ay & HnA & _).
  destruct (normalizedPoint_inside _ _ Hlo HB) as (bx & by_ & HnB & _).
  unfold gesture, moves, handleMouseUp, handleMouseMove, handleMouseDown.
  cbn [fst snd fold_left]. rewrite Hc, Hi, HnA, HnB.
  cbn [isDrawing currentBox set_currentBox set_isDrawing negb
       x y width height boundingBoxes set_boundingBoxes].
  cbn [jsub jabs].
  rewrite (Qabs_Qminus ax bx), (Qabs_Qminus ay by_).
  destruct (jgt (Fin (Qabs (bx - ax))) min_size &&
            jgt (Fin (Qabs (by_ - ay))) min_size);
    cbn [boundingBoxes set_currentBox set_isDrawing set_boundingBoxes].
  - apply Forall2_app; [apply Forall_Forall2_diag, Forall_forall;
                        intros; apply same_box_refl|].
    constructor; [|constructor].
    unfold same_box, newBox.
    cbn [x y width height label confidence class_id color attributes
         availableClasses selectedClass selectedColor selectedAttributes
         set_currentBox set_isDrawing].
    pose proof (axis_origin_symmetric ax bx) as Hx.
    pose proof (axis_origin_symmetric ay by_) as Hy.
    cbn [jsub] in Hx, Hy.
    repeat split; try assumption; apply same_value_refl.
  - apply Forall_Forall2_diag, Forall_forall. intros; apply same_box_refl.
Qed.

(** C1.  The direction-independence of the stored box fails once a drag
    towards the upper left arrives in more than one mouse-move: on a 200x200
    canvas the drag from (100,100) over (80,80) to (50,50) stores a box of
    width and height 0.15 at (0.25, 0.25), and the drag between the same two
    corners from (50,50) over (80,80) to (100,100) stores the box of width
    and height 0.25. *)
Theorem up_left_drag_loses_anchor :
  ∃ b1 b2,
    boundingBoxes
      (gesture (mkDom canvas200, pointer 100 100)
         [(mkDom canvas200, pointer 80 80); (mkDom canvas200, pointer 50 50)]
         session0) = [b1] ∧
    boundingBoxes
      (gesture (mkDom canvas200, pointer 50 50)
         [(mkDom canvas200, pointer 80 80); (mkDom canvas200, pointer 100 100)]
         session0) = [b2] ∧
    x b1 ≈ Fin (1 # 4) ∧ y b1 ≈ Fin (1 # 4) ∧
    width b1 ≈ Fin (3 # 20) ∧ height b1 ≈ Fin (3 # 20) ∧
    x b2 ≈ Fin (1 # 4) ∧ y b2 ≈ Fin (1 # 4) ∧
    width b2 ≈ Fin (1 # 4) ∧ height b2 ≈ Fin (1 # 4) ∧
    ¬ same_box b1 b2.
Proof.
  eexists _, _. split; [vm_compute; reflexivity|].
  split; [vm_compute; reflexivity|].
  repeat (split; [vm_compute; reflexivity|]).
  vm_compute. intros (_ & _ & H & _). discriminate H.
Qed.

End gestures.

(** ** The labels of the renderer *)

Section renderer.
Import Annotate AnnotateSpec.

Lemma drawCanvas_ready canvas dom st :
  canvasRef dom = Some canvas → imageRef dom = true →
  context2d canvas = true →
  drawCanvas dom st = imap (drawBox (availableClasses st) canvas) (allBoxes st).
Proof. intros Hc Hi Hx. unfold drawCanvas. now rewrite Hc, Hi, Hx. Qed.

Lemma drawBox_labelText classes canvas i b :
  labelText (drawBox classes canvas i b) =
    (displayNameOf classes b ++ " " ++ nat_to_string (i + 1))%string.
Proof.
  unfold drawBox, displayNameOf. cbn [labelText].
  now destruct (classes !! str_or (label b) "shrimp").
Qed.

(** C2 (as the code has it).  [drawCanvas] paints one label per box, in list
    order (committed boxes, then the candidate); the label of the box at
    position [i] is the display name of its type followed by [i + 1], its
    1-based position among all the boxes painted, not among the boxes of its
    type. *)
Theorem label_is_name_and_list_position dom canvas st i b :
  canvasRef dom = Some canvas → imageRef dom = true →
  context2d canvas = true →
  allBoxes st !! i = Some b →
  length (drawCanvas dom st) = length (allBoxes st) ∧
  labelText <$> drawCanvas dom st !! i =
    Some (displayNameOf (availableClasses st) b ++ " " ++
          nat_to_string (i + 1))%string.
Proof.
  intros Hc Hi Hx Hb. rewrite (drawCanvas_ready canvas) by assumption.
  split; [apply length_imap|].
  rewrite list_lookup_imap, Hb.
  rewrite <- (drawBox_labelText (availableClasses st) canvas). reflexivity.
Qed.

Lemma label_is_name_and_list_position_witness :
  length (drawCanvas (mkDom canvas200) session_three_boxes) =
    length (allBoxes session_three_boxes) ∧
  labelText <$> drawCanvas (mkDom canvas200) session_three_boxes !! 2%nat =
    Some (displayNameOf (availableClasses session_three_boxes) third_box ++
          " " ++ nat_to_string (2 + 1))%string.
Proof.
  apply (label_is_name_and_list_position (mkDom canvas200) canvas200
           session_three_boxes 2 third_box); reflexivity.
Defined.

(** The scenario of the specification: two boxes of type "shrimp", then one
    of type "adult".  The third label is "Adult 3", not "Adult 1". *)
Lemma third_label_counts_all_boxes :
  map label (boundingBoxes session_three_boxes) = ["shrimp"; "shrimp"; "adult"] ∧
  map labelText (drawCanvas (mkDom canvas200) session_three_boxes)
    = ["Shrimp 1"; "Shrimp 2"; "Adult 3"] ∧
  map labelText (drawCanvas (mkDom canvas200) session_three_boxes)
    ≠ ["Shrimp 1"; "Shrimp 2"; "Adult 1"].
Proof.
  split; [reflexivity|]. split; [reflexivity|].
  vm_compute. discriminate.
Qed.

(** The earlier revision numbers the boxes the same way, after the raw
    label. *)
Lemma label_is_list_position_v1 dom canvas st i b :
  canvasRef dom = Some canvas → imageRef dom = true →
  context2d canvas = true →
  allBoxes st !! i = Some b →
  labelText <$> AnnotateV1.drawCanvas dom st !! i =
    Some (label b ++ " " ++ nat_to_string (i + 1))%string.
Proof.
  intros Hc Hi Hx Hb. unfold AnnotateV1.drawCanvas. rewrite Hc, Hi, Hx.
  now rewrite list_lookup_imap, Hb.
Qed.

End renderer.

(** ** Deleting a box *)

Section delete_box.
Import Annotate AnnotateSpec.

Lemma filter_index_keep_all {A} (l : list A) n k :
  (n < k)%nat → filter_index (fun _ j => negb (j =? n)%nat) k l = l.
Proof.
  revert k. induction l as [|a l IH]; intros k Hk; cbn; [reflexivity|].
  destruct (Nat.eqb_spec k n) as [->|_]; [lia|]. cbn.
  f_equal. apply IH. lia.
Qed.

Lemma filter_index_delete {A} (l : list A) i k :
  filter_index (fun _ j => negb (j =? i + k)%nat) k l = take i l ++ drop (S i) l.
Proof.
  revert i k. induction l as [|a l IH]; intros i k; cbn.
  - now destruct i.
  - destruct i as [|i]; cbn.
    + rewrite Nat.eqb_refl. cbn. rewrite drop_0.
      apply filter_index_keep_all. lia.
    + destruct (Nat.eqb_spec k (S (i + k))) as [E|_]; [lia|]. cbn.
      f_equal. rewrite <- (IH i (S k)).
      replace (i + S k)%nat with (S (i + k)) by lia. reflexivity.
Qed.

Lemma deleteBox_take_drop i st :
  boundingBoxes (deleteBox i st) =
    take i (boundingBoxes st) ++ drop (S i) (boundingBoxes st).
Proof.
  unfold deleteBox. cbn [boundingBoxes set_boundingBoxes].
  rewrite <- (filter_index_delete _ i 0). now rewrite Nat.add_0_r.
Qed.

(** C7 (as the code has it).  [deleteBox i] removes the box at position [i]
    and nothing else: the boxes before [i] and the boxes after [i] remain, in
    their order; the deleted box is gone from the list when no other
    position held the same box; an index past the end deletes nothing. *)
Theorem deleteBox_removes_position i st :
  boundingBoxes (deleteBox i st) =
    take i (boundingBoxes st) ++ drop (S i) (boundingBoxes st) ∧
  boundingBoxes (deleteBox i st) `sublist_of` boundingBoxes st ∧
  (∀ b, boundingBoxes st !! i = Some b →
        (∀ j, boundingBoxes st !! j = Some b → j = i) →
        b ∉ boundingBoxes (deleteBox i st)) ∧
  (∀ b, boundingBoxes st !! i = Some b →
        length (boundingBoxes st) = S (length (boundingBoxes (deleteBox i st)))) ∧
  ((length (boundingBoxes st) <= i)%nat →
   boundingBoxes (deleteBox i st) = boundingBoxes st).
Proof.
  rewrite deleteBox_take_drop, <- delete_take_drop.
  split; [reflexivity|]. split; [apply sublist_delete|].
  split; [|split].
  - intros b Hb Huniq Hin.
    apply list_elem_of_lookup in Hin as [j Hj].
    destruct (Nat.lt_ge_cases j i) as [Hlt|Hge].
    + rewrite list_lookup_delete_lt in Hj by assumption.
      apply Huniq in Hj. lia.
    + rewrite list_lookup_delete_ge in Hj by assumption.
      apply Huniq in Hj. lia.
  - intros b Hb. rewrite length_delete by eauto. 
    apply lookup_lt_Some in Hb. lia.
  - intros Hge. rewrite delete_take_drop, take_ge, drop_ge by lia.
    apply app_nil_r.
Qed.

(** Of two boxes drawn over the same corners with the same attributes,
    deleting one leaves the other: the list still contains a box with the
    attribute tuple and the geometry of the deleted one. *)
Lemma deleting_a_twin_leaves_the_other :
  boundingBoxes session_twins !! 0%nat = Some twin ∧
  twin ∈ boundingBoxes (deleteBox 0 session_twins).
Proof. split; [reflexivity|]. vm_compute. left. Qed.

End delete_box.

(** ** Saving and navigating *)

Section save_and_navigate.
Import Annotate AnnotateSpec.

(** C9.  The record [saveAnnotation] hands to the persistence endpoint holds
    the box list of the session, and its [total_shrimp] is the length of
    that list. *)
Theorem saved_total_is_box_count st a :
  saveAnnotation st = Posted a →
  total_shrimp a = length (bounding_boxes a) ∧
  bounding_boxes a = boundingBoxes st.
Proof.
  unfold saveAnnotation.
  destruct (length (images st) =? 0)%nat; [discriminate|].
  destruct (js_index (images st) (currentImageIndex st)); [|discriminate].
  intros [= <-]. split; reflexivity.
Qed.

Lemma saved_total_is_box_count_witness :
  total_shrimp annotation_three_boxes =
    length (bounding_boxes annotation_three_boxes) ∧
  bounding_boxes annotation_three_boxes = boundingBoxes session_three_boxes.
Proof.
  apply (saved_total_is_box_count session_three_boxes annotation_three_boxes).
  reflexivity.
Defined.

Lemma nextImage_in_range st :
  index_in_range st → index_in_range (nextImage st) ∧
                       images (nextImage st) = images st.
Proof.
  unfold index_in_range, nextImage. intros H.
  destruct (Z.ltb_spec (currentImageIndex st)
              (Z.of_nat (length (images st)) - 1)); cbn; split; trivial; lia.
Qed.

Lemma prevImage_in_range st :
  index_in_range st → index_in_range (prevImage st) ∧
                       images (prevImage st) = images st.
Proof.
  unfold index_in_range, prevImage. intros H.
  destruct (Z.gtb_spec (currentImageIndex st) 0); cbn; split; trivial; lia.
Qed.

Lemma navigate_in_range clicks st :
  index_in_range st → index_in_range (navigate clicks st) ∧
                       images (navigate clicks st) = images st.
Proof.
  revert st. induction clicks as [|c clicks IH]; intros st H; [now split|].
  unfold navigate in *. cbn [fold_left].
  destruct c.
  - destruct (nextImage_in_range st H) as [H1 E1].
    destruct (IH _ H1) as [H2 E2]. split; [exact H2|congruence].
  - destruct (prevImage_in_range st H) as [H1 E1].
    destruct (IH _ H1) as [H2 E2]. split; [exact H2|congruence].
Qed.

(** C10.  With a non-empty image list and the index within
    [0, images.length - 1], every sequence of Next and Previous clicks leaves
    the index within that range; Next on the last image and Previous on the
    first image change nothing. *)
Theorem navigation_keeps_index_in_range clicks st :
  images st ≠ [] → index_in_range st →
  index_in_range (navigate clicks st) ∧
  images (navigate clicks st) = images st ∧
  (currentImageIndex st = (Z.of_nat (length (images st)) - 1)%Z →
   nextImage st = st) ∧
  (currentImageIndex st = 0%Z → prevImage st = st).
Proof.
  intros _ H. destruct (navigate_in_range clicks st H) as [H1 H2].
  split; [exact H1|]. split; [exact H2|]. split.
  - intros E. unfold nextImage. rewrite E, Z.ltb_irrefl. reflexivity.
  - intros E. unfold prevImage. rewrite E. reflexivity.
Qed.

Lemma navigation_keeps_index_in_range_witness :
  index_in_range (navigate [Next; Next; Previous; Previous; Previous; Next]
                    session_two_images) ∧
  images (navigate [Next; Next; Previous; Previous; Previous; Next]
            session_two_images) = images session_two_images ∧
  (currentImageIndex session_two_images =
     (Z.of_nat (length (images session_two_images)) - 1)%Z →
   nextImage session_two_images = session_two_images) ∧
  (currentImageIndex session_two_images = 0%Z →
   prevImage session_two_images = session_two_images).
Proof.
  apply (navigation_keeps_index_in_range
           [Next; Next; Previous; Previous; Previous; Next] session_two_images).
  - discriminate.
  - unfold index_in_range. cbn. lia.
Defined.

End save_and_navigate.

(** ** The log of the training progress modal *)

Section log_rule.
Import Training TrainingSpec.

Lemma shouldLog_true st s :
  shouldLog st s = true →
  prevStatusRef st ≠ Some (status s) ∨
  prevEpochRef st ≠ Some (current_epoch s).
Proof.
  unfold shouldLog. rewrite !orb_true_iff, !andb_true_iff, !negb_true_iff.
  rewrite !bool_decide_eq_true, !bool_decide_eq_false.
  intros [[[H|H]|[H1 H2]]|[H1 H2]]; [left|right|left|right]; try assumption.
  - now rewrite H1.
  - rewrite H2. discriminate.
Qed.

Lemma shouldLog_false st s : shouldLog st s = false → refs_hold st s.
Proof.
  unfold shouldLog, refs_hold.
  rewrite !orb_false_iff, !negb_false_iff, !bool_decide_eq_true. tauto.
Qed.

Lemma shouldLog_changed st s :
  prevStatusRef st ≠ Some (status s) ∨
  prevEpochRef st ≠ Some (current_epoch s) →
  shouldLog st s = true.
Proof.
  intros H. destruct (shouldLog st s) eqn:E; [reflexivity|].
  apply shouldLog_false in E as [E1 E2]. tauto.
Qed.

(** After a successful poll the refs hold what was observed, whether a line
    was logged or not: the refs are the previously observed state. *)
Lemma refs_track_observation st now s :
  refs_hold (onPollResult now (Json true (Some s)) st) s.
Proof.
  unfold onPollResult. destruct (shouldLog st s) eqn:E.
  - split; reflexivity.
  - apply shouldLog_false in E. exact E.
Qed.

Lemma appendLog_cases line prev :
  appendLog line prev = prev ∨
  (appendLog line prev = slice_last 50 (prev ++ [line]) ∧
   last prev ≠ Some line).
Proof.
  unfold appendLog.
  destruct (0 <? length prev)%nat eqn:E; cbn [andb].
  - destruct (bool_decide (last prev = Some line)) eqn:D; [now left|].
    right. split; [reflexivity|]. now apply bool_decide_eq_false in D.
  - right. split; [reflexivity|].
    apply Nat.ltb_ge in E. destruct prev; [discriminate|cbn in E; lia].
Qed.

Lemma appendLog_fresh line prev :
  last prev ≠ Some line → (length prev < 50)%nat →
  appendLog line prev = prev ++ [line].
Proof.
  intros Hl Hn. unfold appendLog.
  assert ((0 <? length prev)%nat && bool_decide (last prev = Some line) = false) as ->.
  { apply andb_false_iff. right. now apply bool_decide_eq_false. }
  unfold slice_last. rewrite length_app. cbn [length].
  replace (length prev + 1 - 50)%nat with 0%nat by lia. apply drop_0.
Qed.

(** One response, on the logs and the refs. *)
Lemma onPollResult_unchanged st now s :
  refs_hold st s →
  logs (onPollResult now (Json true (Some s)) st) = logs st ∧
  refs_hold (onPollResult now (Json true (Some s)) st) s.
Proof.
  intros [H1 H2]. split; [|apply refs_track_observation].
  unfold onPollResult.
  destruct (shouldLog st s) eqn:E; [|reflexivity].
  apply shouldLog_true in E. tauto.
Qed.

Lemma onPollResult_logged st now s :
  prevStatusRef st ≠ Some (status s) ∨
  prevEpochRef st ≠ Some (current_epoch s) →
  last (logs st) ≠ Some (logMessage now s) → (length (logs st) < 50)%nat →
  logs (onPollResult now (Json true (Some s)) st) =
    logs st ++ [logMessage now s] ∧
  refs_hold (onPollResult now (Json true (Some s)) st) s.
Proof.
  intros Hc Hl Hn. split; [|apply refs_track_observation].
  unfold onPollResult. rewrite (shouldLog_changed _ _ Hc). cbn [logs].
  now apply appendLog_fresh.
Qed.

Lemma log_only_on_change st now r :
  logs (onPollResult now r st) ≠ logs st →
  ∃ s, r = Json true (Some s) ∧
       (prevStatusRef st ≠ Some (status s) ∨
        prevEpochRef st ≠ Some (current_epoch s)).
Proof.
  destruct r as [|[] [s|]]; cbn; try congruence.
  destruct (shouldLog st s) eqn:E; cbn; [|congruence].
  intros _. exists s. split; [reflexivity|]. now apply shouldLog_true.
Qed.

Lemma log_never_repeats_last st now r :
  logs (onPollResult now r st) = logs st ∨
  ∃ line, logs (onPollResult now r st) = slice_last 50 (logs st ++ [line]) ∧
          last (logs st) ≠ Some line.
Proof.
  destruct r as [|[] [s|]]; cbn; try (now left).
  destruct (shouldLog st s); cbn; [|now left].
  destruct (appendLog_cases (logMessage now s) (logs st)) as [H|H];
    [now left|right; eauto].
Qed.

End log_rule.

Section log_history.
Import Training TrainingSpec.

Lemma no_adjacent_dup_tail a l : no_adjacent_dup (a :: l) → no_adjacent_dup l.
Proof. destruct l; cbn; tauto. Qed.

Lemma no_adjacent_dup_drop n l : no_adjacent_dup l → no_adjacent_dup (drop n l).
Proof.
  revert l. induction n as [|n IH]; intros l H; [now rewrite drop_0|].
  destruct l as [|a l]; [exact I|]. cbn [drop].
  apply IH. now apply no_adjacent_dup_tail in H.
Qed.

Lemma no_adjacent_dup_snoc l line :
  no_adjacent_dup l → last l ≠ Some line → no_adjacent_dup (l ++ [line]).
Proof.
  induction l as [|a l IH]; intros H Hl; [exact I|].
  destruct l as [|b l].
  - cbn in *. split; [congruence|exact I].
  - destruct H as [Hab H]. split; [exact Hab|].
    apply IH; [exact H|]. exact Hl.
Qed.

Lemma onPollResult_no_adjacent_dup st now r :
  no_adjacent_dup (logs st) → no_adjacent_dup (logs (onPollResult now r st)).
Proof.
  intros H. destruct (log_never_repeats_last st now r) as [->|(line & -> & Hl)];
    [exact H|].
  apply no_adjacent_dup_drop. now apply no_adjacent_dup_snoc.
Qed.

Lemma step_logs ev st :
  logs (step ev st).1 = logs st ∨
  ∃ now r, logs (step ev st).1 = logs (onPollResult now r st).
Proof.
  destruct ev as [v| |now r]; cbn.
  - left. destruct (bool_decide (v = isVisible st)); [reflexivity|].
    now destruct v.
  - now left.
  - right. eauto.
Qed.

(** The history of a mounted modal never holds the same text twice in a
    row. *)
Lemma history_no_adjacent_dup evs st :
  no_adjacent_dup (logs st) → no_adjacent_dup (logs (run evs st)).
Proof.
  revert st. induction evs as [|ev evs IH]; intros st H; [exact H|].
  unfold run in *. cbn [fold_left]. apply IH.
  destruct (step_logs ev st) as [->|(now & r & ->)]; [exact H|].
  now apply onPollResult_no_adjacent_dup.
Qed.

(** Six observations in one showing of the modal, starting from an empty
    history: preparing, preparing, training (epoch 1), training (epoch 1),
    training (epoch 2), completed. *)
Lemma six_observations_four_lines (t1 t2 t3 t4 t5 t6 : string)
    (p e1 e2 c : TrainingUpdate) :
  status p = "preparing" →
  status e1 = "training" → current_epoch e1 = 1%Z →
  status e2 = "training" → current_epoch e2 = 2%Z →
  status c = "completed" →
  logMessage t1 p ≠ logMessage t3 e1 →
  logMessage t3 e1 ≠ logMessage t5 e2 →
  logMessage t5 e2 ≠ logMessage t6 c →
  logs (observe [(t1, p); (t2, p); (t3, e1); (t4, e1); (t5, e2); (t6, c)]
          shown)
  = [logMessage t1 p; logMessage t3 e1; logMessage t5 e2; logMessage t6 c].
Proof.
  intros Hp He1 Hn1 He2 Hn2 Hc D13 D35 D56.
  unfold observe. cbn [fold_left fst snd].
  (* first observation: preparing *)
  assert (Hs : logs shown = [] ∧ prevStatusRef shown = None) by (now split).
  destruct Hs as [Hs1 Hs2].
  destruct (onPollResult_logged shown t1 p) as [L1 [R1 R1']];
    [left; rewrite Hs2; discriminate | rewrite Hs1; discriminate
    | rewrite Hs1; cbn; lia |].
  rewrite Hs1 in L1. cbn [app] in L1.
  set (st1 := onPollResult t1 (Json true (Some p)) shown) in *.
  (* second observation: preparing again *)
  destruct (onPollResult_unchanged st1 t2 p (conj R1 R1')) as [L2 [R2 R2']].
  set (st2 := onPollResult t2 (Json true (Some p)) st1) in *.
  (* third: training, epoch 1 *)
  destruct (onPollResult_logged st2 t3 e1) as [L3 [R3 R3']].
  { left. rewrite R2, Hp, He1. discriminate. }
  { rewrite L2, L1. cbn. congruence. }
  { rewrite L2, L1. cbn. lia. }
  set (st3 := onPollResult t3 (Json true (Some e1)) st2) in *.
  (* fourth: training, epoch 1 again *)
  destruct (onPollResult_unchanged st3 t4 e1 (conj R3 R3')) as [L4 [R4 R4']].
  set (st4 := onPollResult t4 (Json true (Some e1)) st3) in *.
  (* fifth: training, epoch 2 *)
  destruct (onPollResult_logged st4 t5 e2) as [L5 [R5 R5']].
  { right. rewrite R4', Hn1, Hn2. discriminate. }
  { rewrite L4, L3, L2, L1. cbn. congruence. }
  { rewrite L4, L3, L2, L1. cbn. lia. }
  set (st5 := onPollResult t5 (Json true (Some e2)) st4) in *.
  (* sixth: completed *)
  destruct (onPollResult_logged st5 t6 c) as [L6 _].
  { left. rewrite R5, He2, Hc. discriminate. }
  { rewrite L5, L4, L3, L2, L1. cbn. congruence. }
  { rewrite L5, L4, L3, L2, L1. cbn. lia. }
  rewrite L6, L5, L4, L3, L2, L1. reflexivity.
Qed.

End log_history.

(** ** When the status endpoint is polled *)

Section polling.
Import Training TrainingSpec.

Lemma onPollResult_flags now r st :
  isVisible (onPollResult now r st) = isVisible st ∧
  interval (onPollResult now r st) = interval st.
Proof.
  destruct r as [|[] [s|]]; cbn; try (now split).
  now destruct (shouldLog st s).
Qed.

(** The timer of the modal is armed exactly while the modal is visible. *)
Lemma step_timer ev st :
  interval st = isVisible st →
  interval (step ev st).1 = isVisible (step ev st).1.
Proof.
  intros H. destruct ev as [v| |now r]; cbn.
  - destruct (bool_decide (v = isVisible st)); [exact H|]. now destruct v.
  - exact H.
  - destruct (onPollResult_flags now r st) as [-> ->]. exact H.
Qed.

Lemma run_timer evs st :
  interval st = isVisible st →
  interval (run evs st) = isVisible (run evs st).
Proof.
  revert st. induction evs as [|ev evs IH]; intros st H; [exact H|].
  unfold run in *. cbn [fold_left]. apply IH. now apply step_timer.
Qed.

Lemma request_only_while_visible ev st :
  interval st = isVisible st →
  (step ev st).2 ≠ 0%nat → isVisible (step ev st).1 = true.
Proof.
  intros H. destruct ev as [v| |now r]; cbn.
  - destruct (bool_decide (v = isVisible st)); cbn; [congruence|].
    destruct v; cbn; congruence.
  - destruct (interval st) eqn:E; cbn; congruence.
  - congruence.
Qed.

Lemma hidden_step_silent ev st :
  interval st = isVisible st → isVisible st = false →
  ev ≠ SetVisible true →
  (step ev st).2 = 0%nat ∧ isVisible (step ev st).1 = false.
Proof.
  intros H Hv Hev. destruct ev as [v| |now r]; cbn.
  - destruct v; [congruence|].
    rewrite Hv. rewrite bool_decide_eq_true_2 by reflexivity. now split.
  - rewrite H, Hv. now split.
  - destruct (onPollResult_flags now r st) as [-> _]. now split.
Qed.

Lemma hidden_no_requests later st :
  interval st = isVisible st → isVisible st = false →
  SetVisible true ∉ later → requests later st = 0%nat.
Proof.
  revert st. induction later as [|ev later IH]; intros st H Hv Hnot;
    [reflexivity|].
  cbn [requests].
  destruct (hidden_step_silent ev st H Hv) as [-> Hv'].
  { intros ->. apply Hnot. left. }
  apply IH; [now apply step_timer|exact Hv'|].
  intros Hin. apply Hnot. now right.
Qed.

Lemma terminal_not_active s :
  terminal s = true →
  bool_decide (s = "preparing") = false ∧ bool_decide (s = "training") = false.
Proof.
  unfold terminal. rewrite orb_true_iff, !bool_decide_eq_true.
  intros [->| ->]; now split.
Qed.

(** C5 (as the code has it).  The progress modal issues a request only in a
    step after which it is visible, and once it is hidden it issues none
    until it is shown again; a terminal state has no part in this.  It is the poller of the training page
    that stops on a terminal state: after it has observed "completed" or
    "failed", its timer is disarmed. *)
Theorem polling_follows_visibility evs :
  (∀ ev, (step ev (run evs mounted)).2 ≠ 0%nat →
         isVisible (step ev (run evs mounted)).1 = true) ∧
  (isVisible (run evs mounted) = false →
   ∀ later, SetVisible true ∉ later →
            requests later (run evs mounted) = 0%nat) ∧
  (∀ p s, terminal (status s) = true →
          pageInterval (onFetchResult (Json true (Some s)) p) = false ∧
          pageTick (onFetchResult (Json true (Some s)) p) = 0%nat).
Proof.
  assert (H : interval (run evs mounted) = isVisible (run evs mounted))
    by (now apply run_timer).
  split; [intros ev; now apply request_only_while_visible|].
  split; [intros Hv later; now apply hidden_no_requests|].
  intros p s Ht.
  assert (pageInterval (onFetchResult (Json true (Some s)) p) = false) as E.
  { unfold pageInterval, onFetchResult.
    cbn [isTraining trainingStatus]. rewrite Ht.
    destruct (terminal_not_active _ Ht) as [-> ->]. reflexivity. }
  split; [exact E|]. unfold pageTick. now rewrite E.
Qed.

(** A visible modal that has observed "completed" polls again at the next
    tick of its timer. *)
Lemma modal_polls_after_completion :
  status <$> trainingData
     (run [SetVisible true;
           Response "10:00:05" (Json true (Some completed_update))] mounted)
    = Some "completed" ∧
  (step Tick
     (run [SetVisible true;
           Response "10:00:05" (Json true (Some completed_update))] mounted)).2
    = 1%nat.
Proof. split; reflexivity. Qed.

End polling.

(** ** What the modal remembers *)

Section log_since_hidden.
Import Training TrainingSpec.

(** The refs hold the state and the epoch of the remembered observation. *)
Lemma refs_remembered evs st mem :
  prevStatusRef st = status <$> mem →
  prevEpochRef st = current_epoch <$> mem →
  prevStatusRef (run evs st) =
    status <$> remembered_from (isVisible st) mem evs ∧
  prevEpochRef (run evs st) =
    current_epoch <$> remembered_from (isVisible st) mem evs.
Proof.
  revert st mem. induction evs as [|ev evs IH]; intros st mem H1 H2;
    [now split|].
  unfold run in *. cbn [fold_left].
  destruct ev as [v| |now r]; cbn [step remembered_from fst].
  - destruct (bool_decide (v = isVisible st)) eqn:E; [now apply IH|].
    destruct v; cbn [runEffect fst].
    + specialize (IH {| isVisible := true; trainingData := trainingData st;
                        logs := logs st; prevStatusRef := prevStatusRef st;
                        prevEpochRef := prevEpochRef st; interval := true |}
                     mem H1 H2). exact IH.
    + specialize (IH {| isVisible := false; trainingData := trainingData st;
                        logs := logs st; prevStatusRef := None;
                        prevEpochRef := None; interval := false |}
                     None eq_refl eq_refl). exact IH.
  - now apply IH.
  - destruct (onPollResult_flags now r st) as [Hv _].
    destruct r as [|[] [s|]];
      try (rewrite <- Hv; now apply IH).
    rewrite <- Hv.
    destruct (refs_track_observation st now s) as [R1 R2].
    now apply IH.
Qed.

Lemma run_snoc evs ev st : run (evs ++ [ev]) st = (step ev (run evs st)).1.
Proof. unfold run. now rewrite fold_left_app. Qed.

(** C3 (as the code has it).  What the modal compares an observation with is
    the observation it remembers: the last successful one since the modal
    was last hidden (hiding forgets it and keeps the history).  A response
    changes the history only if it brings a state or an epoch that differs
    from the remembered ones, or nothing is remembered; no other event
    changes the history; the line a response appends is never the text of
    the last line, so the history never shows the same text twice in a row;
    and the observations preparing, preparing, training (epoch 1), training
    (epoch 1), training (epoch 2), completed, made in one showing of the
    modal from an empty history, leave exactly four lines, provided the
    texts of the four lines differ from one to the next. *)
Theorem log_append_rule_since_hidden (t1 t2 t3 t4 t5 t6 : string)
    (p e1 e2 c : TrainingUpdate) :
  status p = "preparing" →
  status e1 = "training" → current_epoch e1 = 1%Z →
  status e2 = "training" → current_epoch e2 = 2%Z →
  status c = "completed" →
  logMessage t1 p ≠ logMessage t3 e1 →
  logMessage t3 e1 ≠ logMessage t5 e2 →
  logMessage t5 e2 ≠ logMessage t6 c →
  (∀ evs,
     prevStatusRef (run evs mounted) = status <$> remembered evs ∧
     prevEpochRef (run evs mounted) = current_epoch <$> remembered evs) ∧
  (∀ evs now r,
     logs (run (evs ++ [Response now r]) mounted) ≠ logs (run evs mounted) →
     ∃ s, r = Json true (Some s) ∧
          (status <$> remembered evs ≠ Some (status s) ∨
           current_epoch <$> remembered evs ≠ Some (current_epoch s))) ∧
  (∀ evs ev,
     (∀ now r, ev ≠ Response now r) →
     logs (run (evs ++ [ev]) mounted) = logs (run evs mounted)) ∧
  (∀ st now r,
     logs (onPollResult now r st) = logs st ∨
     ∃ line,
       logs (onPollResult now r st) = slice_last 50 (logs st ++ [line]) ∧
       last (logs st) ≠ Some line) ∧
  (∀ evs, no_adjacent_dup (logs (run evs mounted))) ∧
  logs (observe [(t1, p); (t2, p); (t3, e1); (t4, e1); (t5, e2); (t6, c)]
          shown)
  = [logMessage t1 p; logMessage t3 e1; logMessage t5 e2; logMessage t6 c].
Proof.
  intros Hp He1 Hn1 He2 Hn2 Hc D13 D35 D56.
  assert (Hrem : ∀ evs,
     prevStatusRef (run evs mounted) = status <$> remembered evs ∧
     prevEpochRef (run evs mounted) = current_epoch <$> remembered evs).
  { intros evs. now apply (refs_remembered evs mounted None). }
  split; [exact Hrem|]. split.
  { intros evs now r Hne. rewrite run_snoc in Hne. cbn [step fst] in Hne.
    destruct (log_only_on_change _ _ _ Hne) as (s & -> & Hs).
    destruct (Hrem evs) as [E1 E2]. rewrite E1, E2 in Hs. eauto. }
  split.
  { intros evs ev Hev. rewrite run_snoc.
    destruct ev as [v| |now r]; cbn [step fst].
    - destruct (bool_decide (v = isVisible (run evs mounted)));
        [reflexivity|now destruct v].
    - reflexivity.
    - now destruct (Hev now r). }
  split; [apply log_never_repeats_last|].
  split; [intros evs; now apply history_no_adjacent_dup|].
  now apply six_observations_four_lines.
Qed.

Lemma log_append_rule_since_hidden_witness :
  logs (observe [("10:00:00", preparing_update); ("10:00:01", preparing_update);
                 ("10:00:02", epoch1_update); ("10:00:03", epoch1_update);
                 ("10:00:04", epoch2_update); ("10:00:05", completed_update)]
          shown)
  = [logMessage "10:00:00" preparing_update;
     logMessage "10:00:02" epoch1_update;
     logMessage "10:00:04" epoch2_update;
     logMessage "10:00:05" completed_update].
Proof.
  apply (log_append_rule_since_hidden "10:00:00" "10:00:01" "10:00:02"
           "10:00:03" "10:00:04" "10:00:05"
           preparing_update epoch1_update epoch2_update completed_update);
    try reflexivity; vm_compute; discriminate.
Defined.

(** The modal observes "preparing", is hidden and shown again, and observes
    the very same status: a second line is appended although neither the
    state nor the epoch differs from the previous observation. *)
Lemma repeated_status_logged_after_reopening :
  logs (run [SetVisible true;
             Response "10:00:00" (Json true (Some preparing_update))]
          mounted)
  = [logMessage "10:00:00" preparing_update] ∧
  logs (run [SetVisible true;
             Response "10:00:00" (Json true (Some preparing_update));
             SetVisible false; SetVisible true;
             Response "10:00:07" (Json true (Some preparing_update))]
          mounted)
  = [logMessage "10:00:00" preparing_update;
     logMessage "10:00:07" preparing_update].
Proof. split; reflexivity. Qed.

End log_since_hidden.

(** ** Attribute selection *)

Section attribute_selection.
Import Annotate AnnotateSpec AnnotatePage.

Lemma filter_ne_id (attrName : string) (l : list string) :
  attrName ∉ l → filter (λ a, a ≠ attrName) l = l.
Proof.
  induction l as [|a l IH]; intros Hn; [reflexivity|].
  rewrite not_elem_of_cons in Hn. destruct Hn as [Hne Hn].
  rewrite filter_cons_True by congruence. now rewrite IH.
Qed.

(** Clicking an attribute button flips the selection of that attribute and
    of no other. *)
Theorem toggle_flips_one attrName st :
  (attrName ∈ selectedAttributes (toggleAttribute attrName st) ↔
   attrName ∉ selectedAttributes st) ∧
  (∀ a, a ≠ attrName →
        a ∈ selectedAttributes (toggleAttribute attrName st) ↔
        a ∈ selectedAttributes st).
Proof.
  cbn [toggleAttribute selectedAttributes set_selectedAttributes].
  unfold toggle. case_bool_decide as Hin.
  - split.
    + rewrite list_elem_of_filter. tauto.
    + intros a Hne. rewrite list_elem_of_filter. tauto.
  - split.
    + rewrite elem_of_app, list_elem_of_singleton. tauto.
    + intros a Hne. rewrite elem_of_app, list_elem_of_singleton. tauto.
Qed.

Lemma toggle_NoDup attrName prev : NoDup prev → NoDup (toggle attrName prev).
Proof.
  intros Hnd. unfold toggle. case_bool_decide as Hin.
  - now apply NoDup_filter.
  - apply NoDup_app. split; [exact Hnd|]. split; [|apply NoDup_singleton].
    intros a Ha. rewrite list_elem_of_singleton. now intros ->.
Qed.

Lemma toggleAll_NoDup attrNames st :
  NoDup (selectedAttributes st) →
  NoDup (selectedAttributes (toggleAll attrNames st)).
Proof.
  revert st. induction attrNames as [|a l IH]; intros st H; [exact H|].
  unfold toggleAll in *. cbn [fold_left]. apply IH.
  now apply toggle_NoDup.
Qed.

Lemma newBox_attributes st cb :
  attributes (newBox st cb) = Some (selectedAttributes st).
Proof.
  cbn [newBox attributes]. now destruct (selectedAttributes st).
Qed.

(** Whatever attribute buttons are clicked, in whatever order, the selection
    holds no attribute twice, and the box committed next carries exactly that
    selection. *)
Theorem committed_attributes_unique attrNames st cb :
  NoDup (selectedAttributes st) →
  NoDup (selectedAttributes (toggleAll attrNames st)) ∧
  attributes (newBox (toggleAll attrNames st) cb) =
    Some (selectedAttributes (toggleAll attrNames st)).
Proof.
  intros H. split; [now apply toggleAll_NoDup|apply newBox_attributes].
Qed.

Lemma committed_attributes_unique_witness :
  NoDup (selectedAttributes
           (toggleAll ["berried"; "juvenile"; "berried"; "molting"] session0)) ∧
  attributes
    (newBox (toggleAll ["berried"; "juvenile"; "berried"; "molting"] session0)
       twin) =
    Some (selectedAttributes
            (toggleAll ["berried"; "juvenile"; "berried"; "molting"] session0)).
Proof.
  apply (committed_attributes_unique
           ["berried"; "juvenile"; "berried"; "molting"] session0 twin).
  refine (bool_decide_unpack _ _). vm_compute. exact I.
Defined.

(** Clicking the same attribute button twice restores the selection: the
    very same list when the attribute was not selected, the same attributes
    with the clicked one moved to the end when it was. *)
Theorem toggle_twice attrName st :
  NoDup (selectedAttributes st) →
  (attrName ∉ selectedAttributes st →
   selectedAttributes (toggleAttribute attrName (toggleAttribute attrName st))
   = selectedAttributes st) ∧
  (attrName ∈ selectedAttributes st →
   selectedAttributes (toggleAttribute attrName (toggleAttribute attrName st))
   = filter (λ a, a ≠ attrName) (selectedAttributes st) ++ [attrName]) ∧
  selectedAttributes (toggleAttribute attrName (toggleAttribute attrName st))
    ≡ₚ selectedAttributes st.
Proof.
  intros Hnd.
  cbn [toggleAttribute selectedAttributes set_selectedAttributes].
  set (sel := selectedAttributes st) in *.
  assert (Hout : attrName ∉ sel → toggle attrName (toggle attrName sel) = sel).
  { intros Hn. unfold toggle at 2. rewrite bool_decide_eq_false_2 by exact Hn.
    unfold toggle. rewrite bool_decide_eq_true_2
      by (rewrite elem_of_app, list_elem_of_singleton; tauto).
    rewrite filter_app, filter_ne_id by exact Hn.
    rewrite filter_cons_False by tauto. cbn. apply app_nil_r. }
  assert (Hin : attrName ∈ sel →
    toggle attrName (toggle attrName sel) =
    filter (λ a, a ≠ attrName) sel ++ [attrName]).
  { intros Hi. unfold toggle at 2. rewrite bool_decide_eq_true_2 by exact Hi.
    unfold toggle. rewrite bool_decide_eq_false_2; [reflexivity|].
    rewrite list_elem_of_filter. tauto. }
  split; [exact Hout|]. split; [exact Hin|].
  destruct (decide (attrName ∈ sel)) as [Hi|Hn]; [|now rewrite Hout].
  rewrite (Hin Hi).
  apply NoDup_Permutation; [|exact Hnd|].
  - apply NoDup_app. split; [now apply NoDup_filter|].
    split; [|apply NoDup_singleton].
    intros a Ha. rewrite list_elem_of_filter in Ha.
    rewrite list_elem_of_singleton. tauto.
  - intros a. rewrite elem_of_app, list_elem_of_filter, list_elem_of_singleton.
    destruct (decide (a = attrName)) as [->|]; tauto.
Qed.

Lemma toggle_twice_witness :
  selectedAttributes
    (toggleAttribute "berried" (toggleAttribute "berried"
       (toggleAll ["berried"; "juvenile"] session0)))
  ≡ₚ selectedAttributes (toggleAll ["berried"; "juvenile"] session0).
Proof.
  apply (toggle_twice "berried" (toggleAll ["berried"; "juvenile"] session0)).
  refine (bool_decide_unpack _ _). vm_compute. exact I.
Defined.

End attribute_selection.

(** ** Pointer events on the canvas *)

Section pointer_events.
Import Annotate AnnotateSpec AnnotatePage.

Lemma handleMouseDown_boxes dom e st :
  boundingBoxes (handleMouseDown dom e st) = boundingBoxes st.
Proof.
  unfold handleMouseDown.
  destruct (canvasRef dom) as [canvas|], (imageRef dom); try reflexivity;
    now destruct (normalizedPoint canvas e).
Qed.

Lemma handleMouseMove_boxes dom e st :
  boundingBoxes (handleMouseMove dom e st) = boundingBoxes st.
Proof.
  unfold handleMouseMove.
  destruct (isDrawing st); cbn [negb]; [|reflexivity].
  destruct (currentBox st) as [cb|], (canvasRef dom) as [canvas|];
    try reflexivity; now destruct (normalizedPoint canvas e).
Qed.

Lemma handleMouseUp_boxes st :
  boundingBoxes (handleMouseUp st) = boundingBoxes st ∨
  ∃ b, boundingBoxes (handleMouseUp st) = boundingBoxes st ++ [b].
Proof.
  unfold handleMouseUp.
  destruct (isDrawing st); cbn [negb]; [|now left].
  destruct (currentBox st) as [cb|]; [|now left].
  destruct (jgt (width cb) min_size && jgt (height cb) min_size);
    cbn; [right; eauto|now left].
Qed.

Lemma onPointer_boxes ev st :
  boundingBoxes (onPointer ev st) = boundingBoxes st ∨
  (isRelease ev = true ∧
   ∃ b, boundingBoxes (onPointer ev st) = boundingBoxes st ++ [b]).
Proof.
  destruct ev as [dom e|dom e| |]; cbn [onPointer isRelease].
  - left. apply handleMouseDown_boxes.
  - left. apply handleMouseMove_boxes.
  - destruct (handleMouseUp_boxes st); [now left|now right].
  - destruct (handleMouseUp_boxes st); [now left|now right].
Qed.

(** No sequence of pointer events removes, changes or reorders a committed
    box: the box list only grows at its end, by at most one box per release
    of the pointer (mouse-up or mouse-leave). *)
Theorem pointer_events_only_append evs st :
  boundingBoxes st `prefix_of` boundingBoxes (pointerRun evs st) ∧
  (length (boundingBoxes (pointerRun evs st)) <=
   length (boundingBoxes st) + releases evs)%nat.
Proof.
  revert st. induction evs as [|ev evs IH]; intros st.
  - cbn. split; [reflexivity|lia].
  - unfold pointerRun in *. cbn [fold_left].
    destruct (IH (onPointer ev st)) as [Hp Hl].
    unfold releases in *.
    destruct (onPointer_boxes ev st) as [E|[Hr [b E]]].
    + rewrite E in Hp, Hl. split; [exact Hp|].
      rewrite filter_cons. case_decide; cbn [length]; lia.
    + rewrite E in Hp, Hl. split.
      * etrans; [|exact Hp]. now apply prefix_app_r.
      * rewrite filter_cons. case_decide; [|congruence].
        rewrite length_app in Hl. cbn [length] in *. lia.
Qed.

Lemma onPointer_consistent ev st : consistent st → consistent (onPointer ev st).
Proof.
  unfold consistent. intros H.
  destruct ev as [dom e|dom e| |]; cbn [onPointer].
  - unfold handleMouseDown.
    destruct (canvasRef dom) as [canvas|], (imageRef dom); try exact H.
    destruct (normalizedPoint canvas e). cbn. split; eauto.
  - unfold handleMouseMove.
    destruct (isDrawing st) eqn:D; cbn [negb]; [|now rewrite D].
    destruct (currentBox st) as [cb|] eqn:C, (canvasRef dom) as [canvas|];
      try (now rewrite D, C).
    destruct (normalizedPoint canvas e). cbn. rewrite D. split; eauto.
  - unfold handleMouseUp.
    destruct (isDrawing st) eqn:D; cbn [negb]; [|now rewrite D].
    destruct (currentBox st) as [cb|] eqn:C; [|now rewrite D, C].
    cbn. split; [discriminate|]. intros [? [=]].
  - unfold handleMouseUp.
    destruct (isDrawing st) eqn:D; cbn [negb]; [|now rewrite D].
    destruct (currentBox st) as [cb|] eqn:C; [|now rewrite D, C].
    cbn. split; [discriminate|]. intros [? [=]].
Qed.

Lemma handleMouseUp_idle_after st :
  consistent st → isDrawing (handleMouseUp st) = false ∧
                  currentBox (handleMouseUp st) = None.
Proof.
  unfold consistent, handleMouseUp. intros H.
  destruct (isDrawing st) eqn:D; cbn [negb].
  - destruct (proj1 H eq_refl) as [cb C]. rewrite C. now split.
  - rewrite D. split; [reflexivity|].
    destruct (currentBox st) eqn:C; [|reflexivity].
    assert (true = false) by (symmetry; apply H; eauto). discriminate.
Qed.

(** The drawing flag and the candidate stay in step under every sequence of
    pointer events, and after a release of the pointer the session is
    idle. *)
Theorem drawing_state_consistent evs st :
  consistent st →
  consistent (pointerRun evs st) ∧
  (∀ ev, isRelease ev = true →
         isDrawing (pointerRun (evs ++ [ev]) st) = false ∧
         currentBox (pointerRun (evs ++ [ev]) st) = None).
Proof.
  intros H.
  assert (Hc : consistent (pointerRun evs st)).
  { revert st H. induction evs as [|ev evs IH]; intros st H; [exact H|].
    unfold pointerRun in *. cbn [fold_left]. apply IH.
    now apply onPointer_consistent. }
  split; [exact Hc|].
  intros ev Hr. unfold pointerRun. rewrite fold_left_app. cbn [fold_left].
  fold (pointerRun evs st).
  destruct ev; try discriminate; cbn [onPointer];
    now apply handleMouseUp_idle_after.
Qed.

Lemma drawing_state_consistent_witness :
  consistent (pointerRun [MouseDown (mkDom canvas200) (pointer 10 10);
                          MouseMove (mkDom canvas200) (pointer 60 70);
                          MouseDown (mkDom canvas200) (pointer 20 20)]
                session0) ∧
  (∀ ev, isRelease ev = true →
         isDrawing (pointerRun ([MouseDown (mkDom canvas200) (pointer 10 10);
                                 MouseMove (mkDom canvas200) (pointer 60 70);
                                 MouseDown (mkDom canvas200) (pointer 20 20)]
                                ++ [ev]) session0) = false ∧
         currentBox (pointerRun ([MouseDown (mkDom canvas200) (pointer 10 10);
                                  MouseMove (mkDom canvas200) (pointer 60 70);
                                  MouseDown (mkDom canvas200) (pointer 20 20)]
                                 ++ [ev]) session0) = None).
Proof.
  apply (drawing_state_consistent
           [MouseDown (mkDom canvas200) (pointer 10 10);
            MouseMove (mkDom canvas200) (pointer 60 70);
            MouseDown (mkDom canvas200) (pointer 20 20)] session0).
  unfold consistent. cbn. split; [discriminate|]. intros [? [=]].
Defined.

(** Moving, releasing or leaving with the pointer while no drag is in
    progress leaves the session as it is: only a mouse-down starts a
    candidate. *)
Theorem idle_pointer_is_inert evs st :
  isDrawing st = false →
  Forall (λ ev, match ev with MouseDown _ _ => False | _ => True end) evs →
  pointerRun evs st = st.
Proof.
  intros Hd Hall. revert st Hd.
  induction Hall as [|ev evs Hev _ IH]; intros st Hd; [reflexivity|].
  unfold pointerRun in *. cbn [fold_left].
  assert (E : onPointer ev st = st).
  { destruct ev; [contradiction| | |]; cbn [onPointer].
    - unfold handleMouseMove. now rewrite Hd.
    - unfold handleMouseUp. now rewrite Hd.
    - unfold handleMouseUp. now rewrite Hd. }
  rewrite E. now apply IH.
Qed.

Lemma idle_pointer_is_inert_witness :
  pointerRun [MouseMove (mkDom canvas200) (pointer 10 10); MouseLeave;
              MouseMove (mkDom canvas200) (pointer 90 40); MouseUp]
    session_three_boxes = session_three_boxes.
Proof.
  apply (idle_pointer_is_inert
           [MouseMove (mkDom canvas200) (pointer 10 10); MouseLeave;
            MouseMove (mkDom canvas200) (pointer 90 40); MouseUp]
           session_three_boxes).
  - reflexivity.
  - repeat constructor.
Defined.

End pointer_events.

(** ** What the renderer paints *)

Section painting.
Import Annotate AnnotateSpec AnnotatePage.

Lemma drawCanvas_lookup canvas dom st i b :
  canvasRef dom = Some canvas → imageRef dom = true →
  context2d canvas = true → allBoxes st !! i = Some b →
  drawCanvas dom st !! i = Some (drawBox (availableClasses st) canvas i b).
Proof.
  intros Hc Hi Hx Hb. rewrite (drawCanvas_ready canvas) by assumption.
  now rewrite list_lookup_imap, Hb.
Qed.

(** A box within the unit square is painted within the canvas, whatever the
    size of the canvas. *)
Theorem painted_inside_canvas dom canvas st i b cw ch :
  canvasRef dom = Some canvas → imageRef dom = true →
  context2d canvas = true →
  canvas_width canvas = Fin cw → canvas_height canvas = Fin ch →
  (0 < cw)%Q → (0 < ch)%Q →
  allBoxes st !! i = Some b → in_unit_square b →
  ∃ d px py pw ph,
    drawCanvas dom st !! i = Some d ∧
    rectX d = Fin px ∧ rectY d = Fin py ∧
    rectWidth d = Fin pw ∧ rectHeight d = Fin ph ∧
    (0 <= px)%Q ∧ (0 <= py)%Q ∧ (0 <= pw)%Q ∧ (0 <= ph)%Q ∧
    (px + pw <= cw)%Q ∧ (py + ph <= ch)%Q.
Proof.
  intros Hc Hi Hx Hw Hh Hcw Hch Hb
         (bx & by_ & w & h & Ex & Ey & Ew & Eh & ? & ? & ? & ? & ? & ?).
  eexists _, (bx * cw)%Q, (by_ * ch)%Q, (w * cw)%Q, (h * ch)%Q.
  split; [eapply drawCanvas_lookup; eassumption|].
  cbn [drawBox rectX rectY rectWidth rectHeight].
  rewrite Ex, Ey, Ew, Eh, Hw, Hh. cbn [jmul].
  repeat split; try reflexivity; nra.
Qed.

Lemma painted_inside_canvas_witness :
  ∃ d px py pw ph,
    drawCanvas (mkDom canvas200) session_twins !! 1%nat = Some d ∧
    rectX d = Fin px ∧ rectY d = Fin py ∧
    rectWidth d = Fin pw ∧ rectHeight d = Fin ph ∧
    (0 <= px)%Q ∧ (0 <= py)%Q ∧ (0 <= pw)%Q ∧ (0 <= ph)%Q ∧
    (px + pw <= 200)%Q ∧ (py + ph <= 200)%Q.
Proof.
  apply (painted_inside_canvas (mkDom canvas200) canvas200 session_twins 1
           twin 200 200); try reflexivity.
  exists (1#4), (1#4), (1#4), (1#4).
  repeat split; try reflexivity; vm_compute; discriminate.
Defined.

(** Dividing what is painted by the canvas dimensions gives back the stored
    box, at every canvas size: a pointer on the painted corner normalises to
    the origin of the box. *)
Theorem painted_corner_normalises_back classes canvas i b e cw ch bx by_ :
  canvas_width canvas = Fin cw → canvas_height canvas = Fin ch →
  (0 < cw)%Q → (0 < ch)%Q →
  x b = Fin bx → y b = Fin by_ →
  (canvasPoint canvas e).1 ≈ rectX (drawBox classes canvas i b) →
  (canvasPoint canvas e).2 ≈ rectY (drawBox classes canvas i b) →
  (normalizedPoint canvas e).1 ≈ x b ∧ (normalizedPoint canvas e).2 ≈ y b.
Proof.
  intros Hw Hh Hcw Hch Ex Ey.
  rewrite normalizedPoint_eq. cbn [fst snd drawBox rectX rectY].
  rewrite Ex, Ey, Hw, Hh. cbn [jmul].
  destruct (canvasPoint canvas e) as [[p| | |] [q| | |]]; cbn [fst snd];
    try contradiction; intros Hp Hq; cbn in Hp, Hq; try contradiction.
  rewrite !jdiv_fin by lra. cbn.
  rewrite Hp, Hq. split; field; lra.
Qed.

Lemma painted_corner_normalises_back_witness :
  (normalizedPoint canvas200 (pointer 50 50)).1 ≈ x twin ∧
  (normalizedPoint canvas200 (pointer 50 50)).2 ≈ y twin.
Proof.
  apply (painted_corner_normalises_back registry canvas200 0 twin
           (pointer 50 50) 200 200 (1#4) (1#4)); reflexivity.
Defined.

Lemma handleMouseUp_commits st cb :
  isDrawing st = true → currentBox st = Some cb → big_enough cb = true →
  handleMouseUp st =
    set_currentBox None
      (set_isDrawing false
         (set_boundingBoxes (boundingBoxes st ++ [newBox st cb]) st)).
Proof.
  intros Hd Hcb Hbig. unfold handleMouseUp. rewrite Hd, Hcb. cbn [negb].
  unfold big_enough in Hbig. now rewrite Hbig.
Qed.

(** The repaint that [handleMouseUp] itself issues when it commits a box
    runs on the session before the commit: it paints the candidate last,
    under the label the candidate got at mouse-down and not under the
    selected type.  A repaint of the committed session (the resize handler
    issues one, at whatever size the canvas then has) paints the box last,
    with the display name of the selected type, its position in the box list
    and the colour of the type. *)
Theorem commit_paints_candidate_then_type dom canvas dom' canvas' st cb
    classInfo :
  canvasRef dom = Some canvas → imageRef dom = true →
  context2d canvas = true →
  canvasRef dom' = Some canvas' → imageRef dom' = true →
  context2d canvas' = true →
  isDrawing st = true → currentBox st = Some cb → big_enough cb = true →
  selectedClass st ≠ "" →
  availableClasses st !! selectedClass st = Some classInfo →
  display_name classInfo ≠ "" →
  (∃ painted stale,
     paintedByMouseUp dom st = Some painted ∧
     length painted = S (length (boundingBoxes st)) ∧
     last painted = Some stale ∧
     labelText stale =
       (displayNameOf (availableClasses st) cb ++ " " ++
        nat_to_string (length (boundingBoxes st) + 1))%string) ∧
  (∃ d, last (drawCanvas dom' (handleMouseUp st)) = Some d ∧
        length (drawCanvas dom' (handleMouseUp st)) =
          S (length (boundingBoxes st)) ∧
        labelText d =
          (display_name classInfo ++ " " ++
           nat_to_string (length (boundingBoxes st) + 1))%string ∧
        strokeStyle d = str_or (cls_color classInfo) "#10B981").
Proof.
  intros Hc Hi Hx Hc' Hi' Hx' Hd Hcb Hbig Hsel Hreg Hname. split.
  - unfold paintedByMouseUp. rewrite Hd, Hcb. cbn [negb].
    eexists _, _. split; [reflexivity|].
    rewrite (drawCanvas_ready canvas) by assumption.
    unfold allBoxes. rewrite Hcb, imap_app. cbn [imap].
    rewrite last_snoc, length_app, length_imap. cbn [length].
    split; [lia|]. split; [reflexivity|].
    unfold compose. rewrite Nat.add_0_r. apply drawBox_labelText.
  - rewrite (handleMouseUp_commits st cb Hd Hcb Hbig).
    rewrite (drawCanvas_ready canvas') by assumption.
    unfold allBoxes.
    cbn [currentBox boundingBoxes availableClasses set_currentBox
         set_isDrawing set_boundingBoxes].
    rewrite imap_app. cbn [imap].
    rewrite last_snoc, length_app, length_imap. cbn [length].
    eexists. split; [reflexivity|]. split; [lia|].
    unfold compose. rewrite Nat.add_0_r. unfold drawBox.
    cbn [labelText strokeStyle label newBox].
    assert (E : str_or (selectedClass st) "shrimp" = selectedClass st)
      by (destruct (selectedClass st); [congruence|reflexivity]).
    rewrite E, Hreg. cbn [from_option].
    assert (E2 : str_or (display_name classInfo) (selectedClass st)
                 = display_name classInfo)
      by (destruct (display_name classInfo); [congruence|reflexivity]).
    rewrite E2. split; reflexivity.
Qed.

Lemma commit_paints_candidate_then_type_witness :
  (∃ painted stale,
     paintedByMouseUp (mkDom canvas200) adult_commit = Some painted ∧
     length painted = S (length (boundingBoxes adult_commit)) ∧
     last painted = Some stale ∧
     labelText stale =
       (displayNameOf (availableClasses adult_commit) adult_candidate ++ " " ++
        nat_to_string (length (boundingBoxes adult_commit) + 1))%string) ∧
  (∃ d, last (drawCanvas (mkDom canvas200) (handleMouseUp adult_commit))
        = Some d ∧
        length (drawCanvas (mkDom canvas200) (handleMouseUp adult_commit)) =
          S (length (boundingBoxes adult_commit)) ∧
        labelText d =
          (display_name adultInfo ++ " " ++
           nat_to_string (length (boundingBoxes adult_commit) + 1))%string ∧
        strokeStyle d = str_or (cls_color adultInfo) "#10B981").
Proof.
  apply (commit_paints_candidate_then_type (mkDom canvas200) canvas200
           (mkDom canvas200) canvas200 adult_commit adult_candidate adultInfo);
    try reflexivity; discriminate.
Defined.

(** In that instance the two repaints differ: "Shrimp 3" at the commit,
    "Adult 3" afterwards. *)
Lemma stale_and_fresh_labels_differ :
  (last <$> paintedByMouseUp (mkDom canvas200) adult_commit) ≫=
    (λ d, labelText <$> d) = Some "Shrimp 3" ∧
  labelText <$> last (drawCanvas (mkDom canvas200) (handleMouseUp adult_commit))
    = Some "Adult 3".
Proof. split; reflexivity. Qed.

(** With no registry entry for the selected type (the registry is empty
    until the classes are fetched), drawing still works: the box is stored
    under the selected name without class id and painted with that raw
    name and the default colour. *)
Theorem committed_box_without_registry_entry dom canvas st cb :
  canvasRef dom = Some canvas → imageRef dom = true →
  context2d canvas = true →
  isDrawing st = true → currentBox st = Some cb → big_enough cb = true →
  selectedClass st ≠ "" →
  availableClasses st !! selectedClass st = None →
  ∃ b d, boundingBoxes (handleMouseUp st) = boundingBoxes st ++ [b] ∧
         label b = selectedClass st ∧ class_id b = None ∧
         last (drawCanvas dom (handleMouseUp st)) = Some d ∧
         labelText d =
           (selectedClass st ++ " " ++
            nat_to_string (length (boundingBoxes st) + 1))%string ∧
         strokeStyle d = "#10B981".
Proof.
  intros Hc Hi Hx Hd Hcb Hbig Hsel Hreg.
  rewrite (handleMouseUp_commits st cb Hd Hcb Hbig).
  rewrite (drawCanvas_ready canvas) by assumption.
  unfold allBoxes.
  cbn [currentBox boundingBoxes availableClasses set_currentBox
       set_isDrawing set_boundingBoxes].
  rewrite imap_app. cbn [imap]. rewrite last_snoc.
  eexists _, _. split; [reflexivity|].
  split; [reflexivity|]. split; [cbn; now rewrite Hreg|].
  split; [reflexivity|].
  unfold compose. rewrite Nat.add_0_r. unfold drawBox.
  cbn [labelText strokeStyle label newBox].
  assert (E : str_or (selectedClass st) "shrimp" = selectedClass st)
    by (destruct (selectedClass st); [congruence|reflexivity]).
  rewrite E, Hreg. cbn [from_option str_or]. split; reflexivity.
Qed.

Lemma committed_box_without_registry_entry_witness :
  ∃ b d, boundingBoxes
           (handleMouseUp (set_currentBox (Some twin)
                             (set_isDrawing true initialSession)))
         = boundingBoxes (set_currentBox (Some twin)
                            (set_isDrawing true initialSession)) ++ [b] ∧
         label b = selectedClass (set_currentBox (Some twin)
                                    (set_isDrawing true initialSession)) ∧
         class_id b = None ∧
         last (drawCanvas (mkDom canvas200)
                 (handleMouseUp (set_currentBox (Some twin)
                                   (set_isDrawing true initialSession))))
         = Some d ∧
         labelText d =
           (selectedClass (set_currentBox (Some twin)
                             (set_isDrawing true initialSession)) ++ " " ++
            nat_to_string
              (length (boundingBoxes
                         (set_currentBox (Some twin)
                            (set_isDrawing true initialSession))) + 1))%string ∧
         strokeStyle d = "#10B981".
Proof.
  apply (committed_box_without_registry_entry (mkDom canvas200) canvas200
           (set_currentBox (Some twin) (set_isDrawing true initialSession))
           twin); try reflexivity; discriminate.
Defined.

End painting.

(** ** The "By Class" counts *)

Section class_counts.
Import Annotate AnnotateSpec AnnotatePage.

Lemma classCount_app c l1 l2 :
  classCount c (l1 ++ l2) = (classCount c l1 + classCount c l2)%nat.
Proof. unfold classCount. now rewrite filter_app, length_app. Qed.

Lemma classCount_cons c b l :
  classCount c (b :: l) =
    ((if decide (label b = c) then 1 else 0) + classCount c l)%nat.
Proof.
  unfold classCount. rewrite filter_cons. now case_decide.
Qed.

(** Committing a box raises the count of the selected type by one and
    leaves the count of every other type as it is; a discarded candidate
    changes no count. *)
Theorem commit_updates_class_count st cb c :
  isDrawing st = true → currentBox st = Some cb →
  classCount c (boundingBoxes (handleMouseUp st)) =
    (classCount c (boundingBoxes st) +
     (if big_enough cb && bool_decide (c = selectedClass st) then 1 else 0))%nat.
Proof.
  intros Hd Hcb.
  destruct (handleMouseUp_drawing st cb Hd Hcb) as (-> & _).
  destruct (big_enough cb); cbn [andb]; [|lia].
  rewrite classCount_app, classCount_cons.
  cbn [label newBox classCount filter length].
  case_decide; case_bool_decide; try congruence; reflexivity.
Qed.

Lemma commit_updates_class_count_witness :
  classCount "adult"
    (boundingBoxes
       (handleMouseUp (set_currentBox (Some twin)
                         (set_isDrawing true
                            (setSelectedClass "adult" session_twins))))) =
    (classCount "adult"
       (boundingBoxes (set_currentBox (Some twin)
                         (set_isDrawing true
                            (setSelectedClass "adult" session_twins)))) +
     (if big_enough twin &&
         bool_decide ("adult" =
                      selectedClass
                        (set_currentBox (Some twin)
                           (set_isDrawing true
                              (setSelectedClass "adult" session_twins))))
      then 1 else 0))%nat.
Proof.
  apply (commit_updates_class_count
           (set_currentBox (Some twin)
              (set_isDrawing true (setSelectedClass "adult" session_twins)))
           twin "adult"); reflexivity.
Defined.

(** Deleting a box lowers the count of its type by one and leaves the count
    of every other type as it is. *)
Theorem delete_updates_class_count i st b c :
  boundingBoxes st !! i = Some b →
  (classCount c (boundingBoxes (deleteBox i st)) +
   (if bool_decide (c = label b) then 1 else 0))%nat =
  classCount c (boundingBoxes st).
Proof.
  intros Hb. rewrite deleteBox_take_drop.
  rewrite <- (take_drop_middle _ _ _ Hb) at 3.
  rewrite !classCount_app, classCount_cons.
  case_decide; case_bool_decide; try congruence; lia.
Qed.

Lemma delete_updates_class_count_witness :
  (classCount "adult" (boundingBoxes (deleteBox 2 session_three_boxes)) +
   (if bool_decide ("adult" = label third_box) then 1 else 0))%nat =
  classCount "adult" (boundingBoxes session_three_boxes).
Proof.
  apply (delete_updates_class_count 2 session_three_boxes third_box "adult").
  reflexivity.
Defined.

Lemma sum_rows (entries : list (string * ClassInfo)) boxes :
  sum_list
    ((omap (λ entry : string * ClassInfo,
              let count := classCount entry.1 boxes in
              if (count =? 0)%nat then None
              else Some (display_name entry.2, count)) entries).*2)
  = sum_list ((λ entry, classCount entry.1 boxes) <$> entries).
Proof.
  induction entries as [|entry entries IH]; [reflexivity|].
  cbn [omap list_omap fmap list_fmap sum_list].
  destruct (Nat.eqb_spec (classCount entry.1 boxes) 0) as [E|_].
  - rewrite E. exact IH.
  - cbn [fmap list_fmap sum_list snd]. now rewrite <- IH.
Qed.

Lemma sum_indicator (keys : list string) (l : string) :
  NoDup keys →
  sum_list ((λ k, if decide (l = k) then 1 else 0)%nat <$> keys) =
    (if decide (l ∈ keys) then 1 else 0)%nat.
Proof.
  induction 1 as [|k keys Hk Hnd IH]; [reflexivity|].
  cbn [fmap list_fmap sum_list]. rewrite IH.
  destruct (decide (l = k)) as [->|Hne].
  - rewrite decide_False by exact Hk.
    rewrite decide_True by left. reflexivity.
  - destruct (decide (l ∈ keys)) as [Hin|Hnin].
    + rewrite decide_True by (now right). reflexivity.
    + rewrite decide_False; [reflexivity|].
      rewrite elem_of_cons. tauto.
Qed.

Lemma sum_counts (keys : list string) boxes :
  NoDup keys → Forall (λ b, label b ∈ keys) boxes →
  sum_list ((λ k, classCount k boxes) <$> keys) = length boxes.
Proof.
  intros Hnd Hall. induction Hall as [|b boxes Hb _ IH].
  - induction keys as [|k keys IHk]; [reflexivity|].
    cbn. apply IHk. now apply NoDup_cons_1_2 in Hnd.
  - cbn [length]. rewrite <- IH.
    assert (E : ∀ ks,
      sum_list ((λ k, classCount k (b :: boxes)) <$> ks) =
      (sum_list ((λ k, if decide (label b = k) then 1 else 0)%nat <$> ks) +
       sum_list ((λ k, classCount k boxes) <$> ks))%nat).
    { induction ks as [|k ks IHk]; [reflexivity|].
      cbn [fmap list_fmap sum_list_with id]. rewrite IHk, classCount_cons.
      lia. }
    rewrite E, (sum_indicator keys (label b) Hnd).
    now rewrite decide_True by exact Hb.
Qed.

(** When the panel is shown (more than one registered type) and every box
    carries a registered type, the counts of its rows add up to the number
    of boxes. *)
Theorem class_rows_add_up st :
  (1 < size (availableClasses st))%nat →
  Forall (λ b, is_Some (availableClasses st !! label b)) (boundingBoxes st) →
  rowsTotal (availableClasses st) (boundingBoxes st) =
    length (boundingBoxes st).
Proof.
  intros Hsize Hall. unfold rowsTotal, classRows.
  apply Nat.ltb_lt in Hsize. rewrite Hsize.
  rewrite sum_rows.
  rewrite <- (sum_counts (map_to_list (availableClasses st)).*1
                (boundingBoxes st)).
  - now rewrite <- list_fmap_compose.
  - apply NoDup_fst_map_to_list.
  - eapply Forall_impl; [exact Hall|]. intros b [ci Hci]. cbn.
    apply list_elem_of_fmap. exists (label b, ci). split; [reflexivity|].
    now apply elem_of_map_to_list.
Qed.

Lemma class_rows_add_up_witness :
  rowsTotal (availableClasses session_three_boxes)
    (boundingBoxes session_three_boxes) =
  length (boundingBoxes session_three_boxes).
Proof.
  apply (class_rows_add_up session_three_boxes).
  - vm_compute. lia.
  - vm_compute. repeat constructor; eexists; reflexivity.
Defined.

End class_counts.

(** ** Saving, loading and the class registry *)

Section persistence.
Import Annotate AnnotateSpec AnnotatePage.

Lemma saveAnnotation_in_range st :
  index_in_range st →
  ∃ img, js_index (images st) (currentImageIndex st) = Some img ∧
         saveAnnotation st =
           Posted {| image_id := img_id img;
                     image_filename := img_filename img;
                     image_width := img_width img;
                     image_height := img_height img;
                     bounding_boxes := boundingBoxes st;
                     total_shrimp := length (boundingBoxes st) |}.
Proof.
  unfold index_in_range, saveAnnotation, js_index. intros H.
  destruct (Nat.eqb_spec (length (images st)) 0) as [E|_]; [lia|].
  destruct (Z.ltb_spec (currentImageIndex st) 0); [lia|].
  destruct (images st !! Z.to_nat (currentImageIndex st)) as [img|] eqn:L.
  - exists img. split; reflexivity.
  - apply lookup_ge_None in L. lia.
Qed.

(** However the user has clicked through the images, Save posts a record
    for the image the index designates: it neither returns early nor fails
    on a missing image. *)
Theorem save_after_navigation_posts clicks st :
  index_in_range st →
  ∃ img a,
    js_index (images st) (currentImageIndex (navigate clicks st)) = Some img ∧
    saveAnnotation (navigate clicks st) = Posted a ∧
    image_id a = img_id img ∧ image_filename a = img_filename img ∧
    bounding_boxes a = boundingBoxes (navigate clicks st).
Proof.
  intros H. destruct (navigate_in_range clicks st H) as [Hr Himg].
  destruct (saveAnnotation_in_range _ Hr) as (img & Hi & Hs).
  rewrite Himg in Hi. eexists img, _. split; [exact Hi|].
  split; [exact Hs|]. repeat split.
Qed.

Lemma save_after_navigation_posts_witness :
  ∃ img a,
    js_index (images session_two_images)
      (currentImageIndex (navigate [Next; Previous; Previous]
                            session_two_images)) = Some img ∧
    saveAnnotation (navigate [Next; Previous; Previous] session_two_images)
      = Posted a ∧
    image_id a = img_id img ∧ image_filename a = img_filename img ∧
    bounding_boxes a =
      boundingBoxes (navigate [Next; Previous; Previous] session_two_images).
Proof.
  apply (save_after_navigation_posts [Next; Previous; Previous]
           session_two_images).
  unfold index_in_range. cbn. lia.
Defined.

(** Loading the record that Save posted gives back the box list that was
    saved, whatever boxes the session holds at the time: the loaded list
    replaces them. *)
Theorem save_then_load_restores st st' a :
  saveAnnotation st = Posted a → index_in_range st' →
  boundingBoxes (loadCurrentImageAnnotation (replyWith a) st') =
    boundingBoxes st ∧
  length (boundingBoxes (loadCurrentImageAnnotation (replyWith a) st')) =
    total_shrimp a.
Proof.
  intros Hs Hr.
  assert (E : boundingBoxes (loadCurrentImageAnnotation (replyWith a) st')
              = bounding_boxes a).
  { destruct (saveAnnotation_in_range st' Hr) as (img & Hi & _).
    unfold loadCurrentImageAnnotation, replyWith. rewrite Hi.
    unfold index_in_range in Hr.
    destruct (Nat.eqb_spec (length (images st')) 0); [lia|reflexivity]. }
  rewrite E. unfold saveAnnotation in Hs.
  destruct (length (images st) =? 0)%nat; [discriminate|].
  destruct (js_index (images st) (currentImageIndex st)); [|discriminate].
  injection Hs as <-. split; reflexivity.
Qed.

Lemma save_then_load_restores_witness :
  boundingBoxes
    (loadCurrentImageAnnotation (replyWith annotation_three_boxes)
       session_two_images) = boundingBoxes session_three_boxes ∧
  length (boundingBoxes
            (loadCurrentImageAnnotation (replyWith annotation_three_boxes)
               session_two_images)) = total_shrimp annotation_three_boxes.
Proof.
  apply (save_then_load_restores session_three_boxes session_two_images
           annotation_three_boxes); [reflexivity|].
  unfold index_in_range. cbn. lia.
Defined.

(** When the class request throws, the registry falls back to the single
    type "shrimp": with the initial selection, the next box is stored with
    class id 0 and shown as "Shrimp"; the boxes and the palette are left as
    they were. *)
Theorem classes_fallback_keeps_drawing st pal cb :
  selectedClass st = "shrimp" →
  ∃ st', fetchAvailableClasses ClassesThrew (st, pal) = Some (st', pal) ∧
         size (availableClasses st') = 1%nat ∧
         boundingBoxes st' = boundingBoxes st ∧
         label (newBox st' cb) = "shrimp" ∧
         class_id (newBox st' cb) = Some 0%Z ∧
         displayNameOf (availableClasses st') (newBox st' cb) = "Shrimp".
Proof.
  intros Hsel. eexists. split; [reflexivity|].
  cbn [fst availableClasses set_availableClasses boundingBoxes].
  split; [apply map_size_singleton|]. split; [reflexivity|].
  unfold newBox, displayNameOf.
  cbn [label class_id availableClasses selectedClass set_availableClasses].
  rewrite Hsel. cbn [str_or]. unfold fallbackClasses.
  rewrite lookup_singleton_eq. repeat split.
Qed.

Lemma classes_fallback_keeps_drawing_witness :
  ∃ st', fetchAvailableClasses ClassesThrew
           (initialSession, {| colorAttributes := ∅;
                               additionalAttributes := ∅ |})
         = Some (st', {| colorAttributes := ∅; additionalAttributes := ∅ |}) ∧
         size (availableClasses st') = 1%nat ∧
         boundingBoxes st' = boundingBoxes initialSession ∧
         label (newBox st' twin) = "shrimp" ∧
         class_id (newBox st' twin) = Some 0%Z ∧
         displayNameOf (availableClasses st') (newBox st' twin) = "Shrimp".
Proof.
  apply (classes_fallback_keeps_drawing initialSession
           {| colorAttributes := ∅; additionalAttributes := ∅ |} twin).
  reflexivity.
Defined.

End persistence.

(** ** The history and the display of the progress modal *)

Section modal_history.
Import Training TrainingSpec TrainingPage.

Lemma appendLog_length line prev :
  (length prev <= 50)%nat → (length (appendLog line prev) <= 50)%nat.
Proof.
  intros H. destruct (appendLog_cases line prev) as [->|[-> _]]; [exact H|].
  unfold slice_last. rewrite length_drop. lia.
Qed.

Lemma onPollResult_length now r st :
  (length (logs st) <= 50)%nat →
  (length (logs (onPollResult now r st)) <= 50)%nat.
Proof.
  intros H. destruct r as [|[] [s|]]; cbn; try exact H.
  destruct (shouldLog st s); cbn; [|exact H]. now apply appendLog_length.
Qed.

(** The history never grows beyond 50 lines, whatever is polled and however
    often the modal is hidden and shown. *)
Theorem history_is_bounded evs st :
  (length (logs st) <= 50)%nat →
  (length (logs (run evs st)) <= 50)%nat.
Proof.
  revert st. induction evs as [|ev evs IH]; intros st H; [exact H|].
  unfold run in *. cbn [fold_left]. apply IH.
  destruct (step_logs ev st) as [->|(now & r & ->)]; [exact H|].
  now apply onPollResult_length.
Qed.

Lemma history_is_bounded_witness :
  (length (logs (run [SetVisible true;
                      Response "10:00:00" (Json true (Some preparing_update));
                      Tick;
                      Response "10:00:01" (Json true (Some epoch1_update))]
                   mounted)) <= 50)%nat.
Proof.
  apply (history_is_bounded
           [SetVisible true;
            Response "10:00:00" (Json true (Some preparing_update));
            Tick;
            Response "10:00:01" (Json true (Some epoch1_update))] mounted).
  cbn. lia.
Defined.

(** When the history is full, a new line pushes the oldest one out and the
    other 49 keep their order. *)
Theorem full_history_drops_oldest st now s :
  prevStatusRef st ≠ Some (status s) ∨
  prevEpochRef st ≠ Some (current_epoch s) →
  last (logs st) ≠ Some (logMessage now s) →
  length (logs st) = 50%nat →
  logs (onPollResult now (Json true (Some s)) st) =
    drop 1 (logs st) ++ [logMessage now s] ∧
  length (logs (onPollResult now (Json true (Some s)) st)) = 50%nat.
Proof.
  intros Hc Hl Hn.
  assert (E : logs (onPollResult now (Json true (Some s)) st) =
              drop 1 (logs st) ++ [logMessage now s]).
  { unfold onPollResult. rewrite (shouldLog_changed _ _ Hc). cbn [logs].
    unfold appendLog. rewrite (bool_decide_eq_false_2 _ Hl), andb_false_r.
    unfold slice_last. rewrite length_app, Hn. cbn [length].
    change (50 + 1 - 50)%nat with 1%nat.
    rewrite drop_app_le by lia. reflexivity. }
  split; [exact E|].
  rewrite E, length_app, length_drop, Hn. reflexivity.
Qed.

Lemma full_history_drops_oldest_witness :
  logs (onPollResult "10:01:00" (Json true (Some completed_update))
          {| isVisible := true; trainingData := Some epoch2_update;
             logs := replicate 49 "..." ++ ["[10:00:59] Training in progress"];
             prevStatusRef := Some "training"; prevEpochRef := Some 2%Z;
             interval := true |}) =
    drop 1 (replicate 49 "..." ++ ["[10:00:59] Training in progress"]) ++
    [logMessage "10:01:00" completed_update] ∧
  length (logs (onPollResult "10:01:00" (Json true (Some completed_update))
                  {| isVisible := true; trainingData := Some epoch2_update;
                     logs := replicate 49 "..." ++
                             ["[10:00:59] Training in progress"];
                     prevStatusRef := Some "training";
                     prevEpochRef := Some 2%Z;
                     interval := true |})) = 50%nat.
Proof.
  apply (full_history_drops_oldest
           {| isVisible := true; trainingData := Some epoch2_update;
              logs := replicate 49 "..." ++ ["[10:00:59] Training in progress"];
              prevStatusRef := Some "training"; prevEpochRef := Some 2%Z;
              interval := true |} "10:01:00" completed_update).
  - left. vm_compute. discriminate.
  - vm_compute. discriminate.
  - reflexivity.
Defined.

Lemma run_app evs1 evs2 st : run (evs1 ++ evs2) st = run evs2 (run evs1 st).
Proof. unfold run. apply fold_left_app. Qed.

Lemma requests_app evs1 evs2 st :
  requests (evs1 ++ evs2) st =
    (requests evs1 st + requests evs2 (run evs1 st))%nat.
Proof.
  revert st. induction evs1 as [|ev evs1 IH]; intros st; [reflexivity|].
  cbn [app requests]. rewrite IH. unfold run. cbn [fold_left]. lia.
Qed.

Lemma unobserved_step ev st :
  (∃ now r, ev = Response now r) → observed ev = None →
  step ev st = (st, 0%nat).
Proof.
  intros (now & r & ->). cbn.
  destruct r as [|[] [s|]]; cbn; intros; try reflexivity; discriminate.
Qed.

(** A poll that throws, is refused or carries no status leaves no trace: the
    modal ends in the same state, having issued the same requests, as if
    that response had never arrived. *)
Theorem failed_poll_leaves_no_trace evs1 evs2 now r st :
  observed (Response now r) = None →
  run (evs1 ++ Response now r :: evs2) st = run (evs1 ++ evs2) st ∧
  requests (evs1 ++ Response now r :: evs2) st = requests (evs1 ++ evs2) st.
Proof.
  intros Hobs.
  assert (E : step (Response now r) (run evs1 st) = (run evs1 st, 0%nat))
    by (apply unobserved_step; eauto).
  rewrite !run_app, !requests_app. unfold run at 1. cbn [fold_left requests].
  rewrite E. cbn [fst snd]. split; reflexivity.
Qed.

Lemma failed_poll_leaves_no_trace_witness :
  run ([SetVisible true] ++ Response "10:00:00" FetchThrew :: [Tick]) mounted
    = run ([SetVisible true] ++ [Tick]) mounted ∧
  requests ([SetVisible true] ++ Response "10:00:00" FetchThrew :: [Tick])
    mounted = requests ([SetVisible true] ++ [Tick]) mounted.
Proof.
  apply (failed_poll_leaves_no_trace [SetVisible true] [Tick] "10:00:00"
           FetchThrew mounted).
  reflexivity.
Defined.

(** Hiding the modal forgets the previous observation but keeps the history:
    after it is shown again, the first status that arrives is logged even if
    it is the status observed before (unless the line repeats the last
    one). *)
Theorem reopening_logs_again st now s :
  isVisible st = true →
  last (logs st) ≠ Some (logMessage now s) →
  (length (logs st) < 50)%nat →
  logs (run [SetVisible false; SetVisible true] st) = logs st ∧
  logs (run [SetVisible false; SetVisible true;
             Response now (Json true (Some s))] st)
    = logs st ++ [logMessage now s].
Proof.
  intros Hv Hl Hn.
  assert (E : run [SetVisible false; SetVisible true] st =
              {| isVisible := true; trainingData := trainingData st;
                 logs := logs st; prevStatusRef := None;
                 prevEpochRef := None; interval := true |}).
  { unfold run. cbn [fold_left step]. rewrite Hv. reflexivity. }
  split; [now rewrite E|].
  change [SetVisible false; SetVisible true; Response now (Json true (Some s))]
    with ([SetVisible false; SetVisible true] ++
          [Response now (Json true (Some s))]).
  rewrite run_app, E. unfold run. cbn [fold_left step fst].
  match goal with
  | |- logs (onPollResult _ _ ?m) = _ =>
      destruct (onPollResult_logged m now s) as [L _];
        [left; cbn; discriminate|exact Hl|exact Hn|exact L]
  end.
Qed.

Lemma reopening_logs_again_witness :
  logs (run [SetVisible false; SetVisible true]
          (run [SetVisible true;
                Response "10:00:00" (Json true (Some preparing_update))]
             mounted))
  = logs (run [SetVisible true;
               Response "10:00:00" (Json true (Some preparing_update))]
            mounted) ∧
  logs (run [SetVisible false; SetVisible true;
             Response "10:00:07" (Json true (Some preparing_update))]
          (run [SetVisible true;
                Response "10:00:00" (Json true (Some preparing_update))]
             mounted))
  = logs (run [SetVisible true;
               Response "10:00:00" (Json true (Some preparing_update))]
            mounted) ++ [logMessage "10:00:07" preparing_update].
Proof.
  apply (reopening_logs_again
           (run [SetVisible true;
                 Response "10:00:00" (Json true (Some preparing_update))]
              mounted) "10:00:07" preparing_update).
  - reflexivity.
  - vm_compute. discriminate.
  - vm_compute. lia.
Defined.

Lemma step_trainingData ev st :
  trainingData (step ev st).1 =
    match observed ev with Some s => Some s | None => trainingData st end.
Proof.
  destruct ev as [v| |now r]; cbn.
  - destruct (bool_decide (v = isVisible st)); [reflexivity|]. now destruct v.
  - reflexivity.
  - destruct r as [|[] [s|]]; cbn; try reflexivity.
    now destruct (shouldLog st s).
Qed.

(** The status the modal displays is the last one a successful poll brought,
    whether or not it was logged; hiding the modal does not clear it. *)
Theorem modal_displays_last_observed evs st :
  trainingData (run evs st) =
    match lastObserved evs with
    | Some s => Some s
    | None => trainingData st
    end.
Proof.
  revert st. induction evs as [|ev evs IH]; intros st; [reflexivity|].
  unfold run in *. cbn [fold_left]. rewrite IH, step_trainingData.
  unfold lastObserved. cbn [omap list_omap].
  destruct (observed ev) as [s|]; [|reflexivity].
  rewrite last_cons. now destruct (last (omap observed evs)).
Qed.

End modal_history.

(** ** Starting and stopping the training *)

Section start_stop.
Import Training TrainingSpec TrainingPage.

(** Start is refused below five annotated images: an error toast, no
    request, the page as it was.  From five on it posts the configuration
    once, opens the modal, arms the poller and shows "preparing" with the
    configured number of epochs. *)
Theorem start_needs_five_annotated ps :
  ((∃ c, PostStart c ∈ (startTraining ps).2) ↔ (5 <= annotated_images ps)%Z) ∧
  ((annotated_images ps < 5)%Z →
   (startTraining ps).1 = ps ∧
   (startTraining ps).2 =
     [ToastError "Need at least 5 annotated images to start training"]) ∧
  ((5 <= annotated_images ps)%Z →
   length (filter (λ a, isPostStart a = true) (startTraining ps).2) = 1%nat ∧
   showTrainingProgress (page (startTraining ps).1) = true ∧
   pageInterval (page (startTraining ps).1) = true ∧
   status (trainingStatus (page (startTraining ps).1)) = "preparing" ∧
   total_epochs (trainingStatus (page (startTraining ps).1)) =
     epochs (config ps)).
Proof.
  unfold startTraining.
  destruct (Z.ltb_spec (annotated_images ps) 5) as [Hlt|Hge]; cbn [fst snd].
  - split; [split|split].
    + intros [c Hc]. apply list_elem_of_singleton in Hc. discriminate.
    + lia.
    + intros _. split; reflexivity.
    + lia.
  - split; [split|split].
    + intros _. exact Hge.
    + intros _. exists (config ps). set_solver.
    + lia.
    + intros _. repeat split.
Qed.

Lemma runCallback_flags cb ps ps' acts :
  runCallback cb ps = Some (ps', acts) →
  showTrainingProgress (page ps') = showTrainingProgress (page ps) ∧
  isTraining (page ps') = isTraining (page ps) ∧
  status (trainingStatus (page ps')) = status (trainingStatus (page ps)).
Proof.
  destruct cb as [n|model]; cbn.
  - intros [= <- _]. repeat split.
  - destruct (modelName model); [|discriminate].
    intros [= <- _]. repeat split.
Qed.

Lemma runCallbacks_flags cbs ps ps' :
  runCallbacks cbs ps = Some ps' →
  showTrainingProgress (page ps') = showTrainingProgress (page ps) ∧
  isTraining (page ps') = isTraining (page ps) ∧
  status (trainingStatus (page ps')) = status (trainingStatus (page ps)).
Proof.
  unfold runCallbacks. revert ps'.
  induction cbs as [|cb cbs IH] using rev_ind; intros ps'.
  - cbn. intros [= <-]. repeat split.
  - rewrite foldl_app. cbn [foldl].
    destruct (foldl _ (Some ps) cbs) as [mid|]; [|discriminate].
    destruct (runCallback cb mid) as [[ps2 acts]|] eqn:E; [|discriminate].
    cbn. intros [= <-].
    destruct (runCallback_flags _ _ _ _ E) as (-> & -> & ->).
    now apply IH.
Qed.

(** When the start request fails, the page shows "failed", the modal is
    closed and the poller is disarmed, and the verification callbacks that
    are still to fire change none of that: they touch the message and the
    progress only. *)
Theorem failed_start_stops_everything detail cbs ps ps' :
  runCallbacks cbs (onStartResponse (StartThrew detail) ps).1 = Some ps' →
  status (trainingStatus (page ps')) = "failed" ∧
  isTraining (page ps') = false ∧
  showTrainingProgress (page ps') = false ∧
  pageInterval (page ps') = false ∧
  pageTick (page ps') = 0%nat.
Proof.
  intros H. apply runCallbacks_flags in H as (Hs & Ht & Hst).
  cbn in Hs, Ht, Hst.
  assert (E : pageInterval (page ps') = false)
    by (unfold pageInterval; now rewrite Ht, Hst).
  unfold pageTick. rewrite E. repeat split; assumption.
Qed.

Lemma failed_start_stops_everything_witness :
  status (trainingStatus (page failedStartPage)) = "failed" ∧
  isTraining (page failedStartPage) = false ∧
  showTrainingProgress (page failedStartPage) = false ∧
  pageInterval (page failedStartPage) = false ∧
  pageTick (page failedStartPage) = 0%nat.
Proof.
  apply (failed_start_stops_everything None [VerifiedModel "yolov8n"]
           (startTraining (initialPage 7)).1 failedStartPage).
  reflexivity.
Defined.

(** A successful Stop clears [isTraining] only: while the last status is
    "preparing" or "training" the poller stays armed, and it is the next poll
    that reports another state which disarms it.  A failed Stop changes
    nothing. *)
Theorem stop_waits_for_next_poll ps :
  status (trainingStatus (page ps)) = "preparing" ∨
  status (trainingStatus (page ps)) = "training" →
  isTraining (page (onStopResponse true ps).1) = false ∧
  pageInterval (page (onStopResponse true ps).1) = true ∧
  (∀ s, status s ≠ "preparing" → status s ≠ "training" →
        pageInterval
          (page (onStatusPoll (Json true (Some s))
                   (onStopResponse true ps).1)) = false) ∧
  (onStopResponse false ps).1 = ps.
Proof.
  intros Hs. cbn [onStopResponse fst page with_page isTraining].
  split; [reflexivity|]. split.
  - unfold pageInterval. cbn [isTraining trainingStatus orb].
    destruct Hs as [-> | ->]; reflexivity.
  - split; [|reflexivity].
    intros s H1 H2. unfold onStatusPoll, pageInterval.
    cbn [page with_page onFetchResult isTraining trainingStatus].
    rewrite (bool_decide_eq_false_2 _ H1), (bool_decide_eq_false_2 _ H2).
    now destruct (terminal (status s)).
Qed.

Lemma stop_waits_for_next_poll_witness :
  isTraining (page (onStopResponse true (startTraining (initialPage 7)).1).1)
    = false ∧
  pageInterval
    (page (onStopResponse true (startTraining (initialPage 7)).1).1) = true ∧
  (∀ s, status s ≠ "preparing" → status s ≠ "training" →
        pageInterval
          (page (onStatusPoll (Json true (Some s))
                   (onStopResponse true (startTraining (initialPage 7)).1).1))
        = false) ∧
  (onStopResponse false (startTraining (initialPage 7)).1).1 =
    (startTraining (initialPage 7)).1.
Proof.
  apply (stop_waits_for_next_poll (startTraining (initialPage 7)).1).
  left. reflexivity.
Defined.



(** Page and modal together: a start that passes the guard opens a hidden
    modal, which polls at once; when the start request then fails, the page
    closes the modal again and the modal issues no request from then on. *)
Theorem failed_start_silences_modal ps m detail later :
  interval m = isVisible m → isVisible m = false →
  (5 <= annotated_images ps)%Z →
  SetVisible true ∉ later →
  isVisible (renderModal (startTraining ps).1 m).1 = true ∧
  (renderModal (startTraining ps).1 m).2 = 1%nat ∧
  isVisible
    (renderModal (onStartResponse (StartThrew detail) (startTraining ps).1).1
       (renderModal (startTraining ps).1 m).1).1 = false ∧
  requests later
    (renderModal (onStartResponse (StartThrew detail) (startTraining ps).1).1
       (renderModal (startTraining ps).1 m).1).1 = 0%nat.
Proof.
  intros Hwf Hv Hge Hlater. unfold startTraining.
  destruct (Z.ltb_spec (annotated_images ps) 5) as [Hlt|_]; [lia|].
  cbn [fst]. unfold renderModal.
  cbn [page with_page showTrainingProgress onStartResponse fst].
  assert (E1 : step (SetVisible true) m = runEffect true m).
  { cbn [step]. rewrite Hv. reflexivity. }
  rewrite E1. cbn [runEffect fst snd isVisible].
  split; [reflexivity|]. split; [reflexivity|].
  set (m1 := {| isVisible := true; trainingData := trainingData m;
                logs := logs m; prevStatusRef := prevStatusRef m;
                prevEpochRef := prevEpochRef m; interval := true |}).
  assert (E2 : step (SetVisible false) m1 = runEffect false m1) by reflexivity.
  rewrite E2. cbn [runEffect fst isVisible].
  split; [reflexivity|]. now apply hidden_no_requests.
Qed.

Lemma failed_start_silences_modal_witness :
  isVisible (renderModal (startTraining (initialPage 7)).1 mounted).1 = true ∧
  (renderModal (startTraining (initialPage 7)).1 mounted).2 = 1%nat ∧
  isVisible
    (renderModal
       (onStartResponse (StartThrew None) (startTraining (initialPage 7)).1).1
       (renderModal (startTraining (initialPage 7)).1 mounted).1).1 = false ∧
  requests [Tick; Response "10:00:00" (Json true (Some preparing_update)); Tick]
    (renderModal
       (onStartResponse (StartThrew None) (startTraining (initialPage 7)).1).1
       (renderModal (startTraining (initialPage 7)).1 mounted).1).1 = 0%nat.
Proof.
  apply (failed_start_silences_modal (initialPage 7) mounted None
           [Tick; Response "10:00:00" (Json true (Some preparing_update)); Tick]).
  - reflexivity.
  - reflexivity.
  - cbn. lia.
  - intros H. repeat (apply elem_of_cons in H as [H|H]; [discriminate|]).
    now apply elem_of_nil in H.
Defined.

End start_stop.

(** ** Gestures on a laid out canvas: instances *)

Section gesture_instances.
Import Annotate AnnotateSpec AnnotatePage.

Lemma canvas200_laid_out : laid_out canvas200.
Proof. split; eexists; (split; [reflexivity|lra]). Qed.

Lemma canvas200_inside cx cy :
  (0 <= cx <= 200)%Q → (0 <= cy <= 200)%Q →
  pointer_inside canvas200 (pointer cx cy).
Proof.
  intros Hx Hy. exists cx, cy, 0%Q, 0%Q, 200%Q, 200%Q.
  repeat split; try reflexivity; lra.
Qed.

Lemma canvas200_within cx cy :
  (0 <= cx <= 200)%Q → (0 <= cy <= 200)%Q →
  within_canvas (mkDom canvas200, pointer cx cy).
Proof.
  intros Hx Hy. exists canvas200. split; [reflexivity|].
  split; [apply canvas200_laid_out|now apply canvas200_inside].
Qed.

Lemma gesture_commits_in_unit_witness :
  boundingBoxes
    (gesture (mkDom canvas200, pointer 100 100)
       [(mkDom canvas200, pointer 80 80); (mkDom canvas200, pointer 50 50)]
       session0) = boundingBoxes session0 ∨
  ∃ b, boundingBoxes
         (gesture (mkDom canvas200, pointer 100 100)
            [(mkDom canvas200, pointer 80 80);
             (mkDom canvas200, pointer 50 50)] session0)
       = boundingBoxes session0 ++ [b] ∧
       in_unit_square b ∧ big_enough b = true.
Proof.
  apply (gesture_commits_in_unit (mkDom canvas200, pointer 100 100)
           [(mkDom canvas200, pointer 80 80); (mkDom canvas200, pointer 50 50)]
           session0).
  - apply canvas200_within; lra.
  - reflexivity.
  - repeat constructor; apply canvas200_within; lra.
Defined.

Lemma single_move_drag_symmetric_witness :
  Forall2 same_box
    (boundingBoxes
       (gesture (mkDom canvas200, pointer 100 100)
          [(mkDom canvas200, pointer 50 50)] session0))
    (boundingBoxes
       (gesture (mkDom canvas200, pointer 50 50)
          [(mkDom canvas200, pointer 100 100)] session0)).
Proof.
  apply (single_move_drag_symmetric (mkDom canvas200) canvas200
           (pointer 100 100) (pointer 50 50) session0).
  - reflexivity.
  - reflexivity.
  - apply canvas200_laid_out.
  - apply canvas200_inside; lra.
  - apply canvas200_inside; lra.
Defined.

Lemma gesture_stores_no_nan_witness :
  boundingBoxes
    (gesture (mkDom canvas200, pointer 100 100)
       [(mkDom canvas_zero_width, pointer 80 80);
        (mkDom canvas200, pointer 50 50)] session0) = boundingBoxes session0 ∨
  ∃ b, boundingBoxes
         (gesture (mkDom canvas200, pointer 100 100)
            [(mkDom canvas_zero_width, pointer 80 80);
             (mkDom canvas200, pointer 50 50)] session0)
       = boundingBoxes session0 ++ [b] ∧ no_nan b.
Proof.
  apply (gesture_stores_no_nan (mkDom canvas200) canvas200 (pointer 100 100)
           [(mkDom canvas_zero_width, pointer 80 80);
            (mkDom canvas200, pointer 50 50)] session0); reflexivity.
Defined.

End gesture_instances.
